(** * update_feed.py: the podcast feed synchroniser of Federal-Circuit

    A shallow embedding of [src/update_feed.py] and the properties of its
    feed store: reading the identifiers already present in [feed.xml]
    ([load_existing_guids]), selecting the cases that are new (the list
    comprehension of [main]), and appending one [<item>] per new case
    ([add_item_to_feed]).

    Modelling conventions.
    - A Python [str] is the list of its Unicode code points.
    - An [xml.etree.ElementTree.Element] is a tree of tag, attributes, text,
      tail and children.  The script only ever looks two levels below the
      root, through [find] and [findall] with a plain tag name.
    - A file on disk is observed by the script in two ways only: its length
      ([os.path.getsize]) and what [ET.parse] makes of it.  A [file] keeps
      these two observations; writing a tree and parsing it again gives the
      tree back.
    - Exceptions are values; an I/O action maps a file system to a result
      and the file system it leaves behind, so that what an aborted action
      has already done to the disk stays visible.
    - The network, the scraper of the index page and the faults of the disk
      are oracles the definitions take as arguments.  [print] is left out. *)

From stdpp Require Import gmap list strings.
From Stdlib Require Import Ascii Decimal ZArith.

#[local] Set Warnings "-clear-no-such-hyp".

Local Open Scope Z_scope.
Local Open Scope list_scope.

(** ** Python strings *)

Abbreviation str := (list N).

(** An ASCII literal of the source as a [str]. *)
Definition py (s : string) : str :=
  N_of_ascii <$> String.list_ascii_of_string s.
Arguments py : simpl never.

(** [str.isspace] on one code point: the white-space table of CPython. *)
Definition isspace (c : N) : bool :=
  ((9 <=? c) && (c <=? 13) ||
   (28 <=? c) && (c <=? 32) ||
   (c =? 133) || (c =? 160) || (c =? 5760) ||
   (8192 <=? c) && (c <=? 8202) ||
   (c =? 8232) || (c =? 8233) || (c =? 8239) || (c =? 8287) ||
   (c =? 12288))%N.

Fixpoint lstrip (s : str) : str :=
  match s with
  | c :: s' => if isspace c then lstrip s' else s
  | [] => []
  end.

Definition rstrip (s : str) : str := reverse (lstrip (reverse s)).

(** [s.strip()] *)
Definition strip (s : str) : str := rstrip (lstrip s).

(** [str(n)] for a non-negative [int]. *)
Fixpoint digits (u : Decimal.uint) : str :=
  match u with
  | Nil => []
  | D0 u => 48%N :: digits u
  | D1 u => 49%N :: digits u
  | D2 u => 50%N :: digits u
  | D3 u => 51%N :: digits u
  | D4 u => 52%N :: digits u
  | D5 u => 53%N :: digits u
  | D6 u => 54%N :: digits u
  | D7 u => 55%N :: digits u
  | D8 u => 56%N :: digits u
  | D9 u => 57%N :: digits u
  end.

Definition str_of_int (n : N) : str := digits (N.to_uint n).

(** ["%0wd" % n] for a non-negative [n]: at least [w] digits, zero padded. *)
Definition zero_padded (w : nat) (n : N) : str :=
  let d := str_of_int n in
  replicate (w - List.length d)%nat 48%N ++ d.

(** ** [datetime] and [email.utils.format_datetime] *)

(** A naive [datetime] (its [tzinfo] is [None]): [discover_mp3_links] builds
    [datetime(year, month, day)] or takes [datetime.utcnow()]. *)
Record datetime := Datetime {
  year : Z; month : Z; day : Z;
  hour : Z; minute : Z; second : Z; microsecond : Z
}.

Definition is_leap (y : Z) : bool :=
  (y mod 4 =? 0) && (negb (y mod 100 =? 0) || (y mod 400 =? 0)).

Definition days_before_year (y : Z) : Z :=
  let y := y - 1 in y * 365 + y / 4 - y / 100 + y / 400.

Definition DAYS_BEFORE_MONTH : list Z :=
  [0; 31; 59; 90; 120; 151; 181; 212; 243; 273; 304; 334].

Definition days_before_month (y m : Z) : Z :=
  nth (Z.to_nat (m - 1)) DAYS_BEFORE_MONTH 0 +
  (if (2 <? m) && is_leap y then 1 else 0).

Definition toordinal (d : datetime) : Z :=
  days_before_year (year d) + days_before_month (year d) (month d) + day d.

(** [timetuple()[6]]: Monday is 0. *)
Definition weekday (d : datetime) : Z := (toordinal d + 6) mod 7.

Definition day_names : list string :=
  ["Mon"; "Tue"; "Wed"; "Thu"; "Fri"; "Sat"; "Sun"]%string.

Definition month_names : list string :=
  ["Jan"; "Feb"; "Mar"; "Apr"; "May"; "Jun";
   "Jul"; "Aug"; "Sep"; "Oct"; "Nov"; "Dec"]%string.

(** ['%s, %02d %s %04d %02d:%02d:%02d %s'] with the zone ['-0000'] of a
    naive datetime. *)
Definition format_datetime (d : datetime) : str :=
  py (nth (Z.to_nat (weekday d)) day_names ""%string) ++ py ", " ++
  zero_padded 2 (Z.to_N (day d)) ++ py " " ++
  py (nth (Z.to_nat (month d - 1)) month_names ""%string) ++ py " " ++
  zero_padded 4 (Z.to_N (year d)) ++ py " " ++
  zero_padded 2 (Z.to_N (hour d)) ++ py ":" ++
  zero_padded 2 (Z.to_N (minute d)) ++ py ":" ++
  zero_padded 2 (Z.to_N (second d)) ++ py " " ++ py "-0000".

(** ** Element trees *)

#[warnings="-register-all"]
Inductive Element := Elem {
  tag : str;
  attrib : list (str * str);
  text : option str;
  tail : option str;
  children : list Element
}.

(** [Element(tag)]: no attributes, no text, no children. *)
Definition new_element (t : str) : Element := Elem t [] None None [].

(** [el.set(key, value)]: the attribute dictionary keeps insertion order. *)
Fixpoint dict_set (k v : str) (d : list (str * str)) : list (str * str) :=
  match d with
  | [] => [(k, v)]
  | (k', v') :: d' =>
      if decide (k' = k) then (k, v) :: d' else (k', v') :: dict_set k v d'
  end.

Definition set_attr (k v : str) (e : Element) : Element :=
  Elem (tag e) (dict_set k v (attrib e)) (text e) (tail e) (children e).

Definition set_text (t : str) (e : Element) : Element :=
  Elem (tag e) (attrib e) (Some t) (tail e) (children e).

(** [parent.append(child)] *)
Definition append_child (c : Element) (e : Element) : Element :=
  Elem (tag e) (attrib e) (text e) (tail e) (children e ++ [c]).

(** [e.find(t)] for a plain tag name: the first child with that tag, with
    its position among the children ([None] is Python's [None]). *)
Definition find (t : str) (e : Element) : option (nat * Element) :=
  list_find (λ c, tag c = t) (children e).

(** [e.findall(t)] for a plain tag name: the children with that tag, in
    document order. *)
Definition findall (t : str) (e : Element) : list Element :=
  filter (λ c, tag c = t) (children e).

(** Python truthiness of [el.text]: neither [None] nor the empty string. *)
Definition truthy (t : option str) : bool :=
  match t with
  | Some (_ :: _) => true
  | _ => false
  end.

(** ** Exceptions, files and I/O actions *)

(** The exception classes the script can raise.  [OSError] stands for any
    failure of [open] or [write] other than the two named ones, and
    [RequestException] for any failure of the [requests] session. *)
Inductive exn :=
| FileNotFoundError
| PermissionError
| OSError
| ParseError
| AttributeError
| TypeError
| RequestException.

(** [type(e).__name__] *)
Definition exn_name (e : exn) : string :=
  match e with
  | FileNotFoundError => "FileNotFoundError"
  | PermissionError => "PermissionError"
  | OSError => "OSError"
  | ParseError => "ParseError"
  | AttributeError => "AttributeError"
  | TypeError => "TypeError"
  | RequestException => "RequestException"
  end.

Inductive result (A : Type) :=
| Ok (a : A)
| Raise (e : exn).
Arguments Ok {A} a.
Arguments Raise {A} e.

(** A file: its length in bytes and the tree [ET.parse] reads from it
    ([None] when the content is not well-formed XML). *)
Record file := File {
  f_size : N;
  f_parse : option Element
}.

Abbreviation FS := (gmap (list N) file).

Definition IO (A : Type) : Type := FS → result A * FS.

#[export] Instance IO_ret : MRet IO := λ A a fs, (Ok a, fs).

(** Sequencing: an exception skips the rest, the file system it left
    behind is kept. *)
#[export] Instance IO_bind : MBind IO := λ A B k m fs,
  match m fs with
  | (Ok a, fs') => k a fs'
  | (Raise e, fs') => (Raise e, fs')
  end.

Definition raise {A} (e : exn) : IO A := λ fs, (Raise e, fs).

Definition of_result {A} (r : result A) : IO A := λ fs, (r, fs).

(** [for x in l: body(x)]: the first exception ends the loop. *)
Fixpoint for_each {A} (body : A → IO unit) (l : list A) : IO unit :=
  match l with
  | [] => mret tt
  | x :: l' => body x ;; for_each body l'
  end.

(** [os.path.exists] *)
Definition path_exists (path : str) : IO bool := λ fs,
  (Ok (bool_decide (is_Some (fs !! path))), fs).

(** [os.path.getsize] *)
Definition getsize (path : str) : IO N := λ fs,
  match fs !! path with
  | Some f => (Ok (f_size f), fs)
  | None => (Raise FileNotFoundError, fs)
  end.

(** [ET.parse(path)] followed by [getroot()]. *)
Definition ET_parse (path : str) : IO Element := λ fs,
  match fs !! path with
  | None => (Raise FileNotFoundError, fs)
  | Some f =>
      match f_parse f with
      | None => (Raise ParseError, fs)
      | Some root => (Ok root, fs)
      end
  end.

(** ** The script *)

Module update_feed.

Definition FEED_PATH : str := py "feed.xml".

Definition PODCAST_BASE_URL : str :=
  py "https://sneha-s2003.github.io/Federal-Circuit".

(** One dictionary of the list [discover_mp3_links] returns. *)
Record Case := mkCase {
  docket : str;
  title : str;
  date : datetime;
  mp3_url : str
}.

(** The body of a streamed HTTP response: the chunks [iter_content] yields,
    and the exception that ends the stream early, if any. *)
Record response := Response {
  chunks : list (list N);
  stream_error : option exn
}.

(** The guid an [<item>] contributes to the result of
    [load_existing_guids]: its first [<guid>] child must exist and have a
    truthy text, which is stripped. *)
Definition item_guid (item : Element) : option str :=
  match find (py "guid") item with
  | Some (_, guid_el) =>
      if truthy (text guid_el) then strip <$> text guid_el else None
  | None => None
  end.

(** One turn of the loop of [load_existing_guids]. *)
Definition add_guid (guids : gset str) (item : Element) : gset str :=
  match item_guid item with
  | Some g => {[ g ]} ∪ guids
  | None => guids
  end.

Definition load_existing_guids (feed_path : str) : IO (gset str) :=
  root ← ET_parse feed_path;
  match find (py "channel") root with
  | None => raise AttributeError
  | Some (_, channel) => mret (foldl add_guid ∅ (findall (py "item") channel))
  end.

(** The [<item>] that [add_item_to_feed] builds, child by child. *)
Definition new_item (case : Case) (local_filename : str) (file_size : N) : Element :=
  let title_el :=
    set_text (docket case ++ py " " ++ [8211%N] ++ py " " ++ title case)
      (new_element (py "title")) in
  let enclosure_el :=
    set_attr (py "type") (py "audio/mpeg")
      (set_attr (py "length") (str_of_int file_size)
        (set_attr (py "url") (PODCAST_BASE_URL ++ py "/" ++ local_filename)
          (new_element (py "enclosure")))) in
  let guid_el :=
    set_text (docket case)
      (set_attr (py "isPermaLink") (py "false") (new_element (py "guid"))) in
  let pubdate_el :=
    set_text (format_datetime (date case)) (new_element (py "pubDate")) in
  let desc_el :=
    set_text (py "Oral argument for docket " ++ docket case ++ py ": " ++
              title case ++ py ".")
      (new_element (py "description")) in
  let itunes_explicit_el :=
    set_text (py "no")
      (new_element (py "{http://www.itunes.com/dtds/podcast-1.0.dtd}explicit")) in
  foldl (λ item el, append_child el item) (new_element (py "item"))
    [title_el; enclosure_el; guid_el; pubdate_el; desc_el; itunes_explicit_el].

(** The tree after [ET.SubElement(channel, "item")] and the assignments
    that follow: [channel] is the child of [root] at position [i], and it
    is changed in place. *)
Definition with_new_item (root : Element) (i : nat) (channel item : Element) : Element :=
  Elem (tag root) (attrib root) (text root) (tail root)
    (<[ i := append_child item channel ]> (children root)).

(** [new_cases = [c for c in cases if c["docket"] not in existing_guids]] *)
Definition select_new (cases : list Case) (existing_guids : gset str) : list Case :=
  filter (λ c, docket c ∉ existing_guids) cases.

Definition local_filename_of (docket : str) : str := docket ++ py ".mp3".

Section script.

(** What [open(path, "w")] answers: [Some e] when it raises [e]. *)
Variable open_fault : str → option exn.

(** What happens to the data written to an opened file: [Some (e, k)] when
    the write raises [e] after [k] bytes reached the disk. *)
Variable write_fault : str → option (exn * nat).

(** The length of the serialisation [ElementTree.write] gives a tree. *)
Variable xml_size : Element → N.

(** What [ET.parse] makes of raw bytes. *)
Variable xml_of_bytes : list N → option Element.

(** [SESSION.get(url, ...)] followed by [raise_for_status()]. *)
Variable http_get : str → result response.

(** What [discover_mp3_links] finds on the index page. *)
Variable index_cases : result (list Case).

Definition discover_mp3_links : IO (list Case) := of_result index_cases.

(** A file that holds exactly [data]. *)
Definition raw_file (data : list N) : file :=
  File (N.of_nat (List.length data)) (xml_of_bytes data).

(** [open(path, "wb")], the writes of [data], and the close. *)
Definition write_bytes (path : str) (data : list N) : IO unit := λ fs,
  match open_fault path with
  | Some e => (Raise e, fs)
  | None =>
      match write_fault path with
      | Some (e, k) => (Raise e, <[ path := raw_file (take k data) ]> fs)
      | None => (Ok tt, <[ path := raw_file data ]> fs)
      end
  end.

(** [tree.write(path, encoding="utf-8", xml_declaration=True)]: the file
    is opened for writing, which empties it, before anything is
    serialised; a write that fails leaves the [k] bytes that reached the
    disk, which are not a whole document. *)
Definition ET_write (path : str) (root : Element) : IO unit := λ fs,
  match open_fault path with
  | Some e => (Raise e, fs)
  | None =>
      match write_fault path with
      | Some (e, k) => (Raise e, <[ path := File (N.of_nat k) None ]> fs)
      | None => (Ok tt, <[ path := File (xml_size root) (Some root) ]> fs)
      end
  end.

Definition download_mp3 (mp3_url out_path : str) : IO N :=
  resp ← of_result (http_get mp3_url);
  write_bytes out_path (List.concat (filter (λ chunk, chunk ≠ []) (chunks resp)));;
  match stream_error resp with
  | Some e => raise e
  | None => getsize out_path
  end.

Definition add_item_to_feed (feed_path : str) (case : Case)
    (local_filename : str) (file_size : N) : IO unit :=
  root ← ET_parse feed_path;
  match find (py "channel") root with
  | None => raise TypeError
  | Some (i, channel) =>
      ET_write feed_path
        (with_new_item root i channel (new_item case local_filename file_size))
  end.

(** The body of the loop over [new_cases] in [main]. *)
Definition process_case (case : Case) : IO unit :=
  let local_filename := local_filename_of (docket case) in
  present ← path_exists local_filename;
  size ← (if negb present
          then download_mp3 (mp3_url case) local_filename
          else getsize local_filename);
  add_item_to_feed FEED_PATH case local_filename size.

Definition main : IO unit :=
  cases ← discover_mp3_links;
  existing_guids ← load_existing_guids FEED_PATH;
  let new_cases := select_new cases existing_guids in
  match new_cases with
  | [] => mret tt
  | _ => for_each process_case new_cases
  end.

End script.

End update_feed.

Import update_feed.

(** ** Vocabulary of the specification *)

(** The tree the feed document parses to, if there is one. *)
Definition feed_root (fs : FS) (feed_path : str) : option Element :=
  fs !! feed_path ≫= f_parse.

(** The entry nodes of a document: the [<item>] children of its channel. *)
Definition entries (root : Element) : list Element :=
  match find (py "channel") root with
  | Some (_, channel) => findall (py "item") channel
  | None => []
  end.

(** The identifiers of the entries, in document order, as
    [load_existing_guids] reads them. *)
Definition entry_ids (root : Element) : list str := omap item_guid (entries root).

(** An identifier that comes back unchanged from [strip]. *)
Definition trimmed (s : str) : Prop := strip s = s.

#[export] Instance trimmed_dec s : Decision (trimmed s).
Proof. unfold trimmed. apply _. Defined.



(** A feed document the script can work on: it exists, it parses and its
    root has a [<channel>] child. *)
Definition well_formed_feed (fs : FS) (feed_path : str) : Prop :=
  match feed_root fs feed_path with
  | Some root => is_Some (find (py "channel") root)
  | None => False
  end.

#[export] Instance well_formed_feed_dec fs feed_path :
  Decision (well_formed_feed fs feed_path).
Proof. unfold well_formed_feed. destruct (feed_root fs feed_path); apply _. Defined.


(** The text of the first [<guid>] of an entry, as it stands in the tree. *)
Definition raw_guid (item : Element) : option str :=
  find (py "guid") item ≫= λ found, text found.2.

(** ** A worked scenario

    The feed of the scenario in the specification: one entry whose guid is
    [2024-1001], and two candidates, of which [2024-1002] is new. *)

Definition no_open_fault : str → option exn := λ _, None.
Definition no_write_fault : str → option (exn * nat) := λ _, None.
Definition read_only : str → option exn := λ _, Some PermissionError.
Definition disk_full : str → option (exn * nat) := λ _, Some (OSError, 40%nat).
Definition count_children : Element → N := λ root, N.of_nat (length (children root)).
Definition not_xml : list N → option Element := λ _, None.
Definition three_chunks : str → result response :=
  λ _, Ok (Response [[73; 68; 51]%N; []; [4]%N] None).
Definition offline : str → result response := λ _, Raise RequestException.

Definition item_1001 : Element :=
  Elem (py "item") [] None None
    [Elem (py "title") [] (Some (py "2024-1001")) None [];
     Elem (py "guid") [(py "isPermaLink", py "false")] (Some (py "2024-1001")) None []].

Definition sample_channel : Element :=
  Elem (py "channel") [] None None
    [Elem (py "title") [] (Some (py "Federal Circuit Oral Arguments")) None [];
     Elem (py "description") [] (Some (py "Audio")) None [];
     item_1001].

Definition sample_feed : Element :=
  Elem (py "rss") [(py "version", py "2.0")] None None [sample_channel].

Definition sample_fs : FS := {[ FEED_PATH := File 512 (Some sample_feed) ]}.

Definition case_1001 : Case :=
  mkCase (py "2024-1001") (py "Doe v. Roe") (Datetime 2024 2 5 0 0 0 0)
    (py "https://x/0.mp3").

Definition case_1002 : Case :=
  mkCase (py "2024-1002") (py "Smith v. Jones") (Datetime 2024 3 1 0 0 0 0)
    (py "https://x/a.mp3").

(** A link whose [href] is [" a.mp3"]: no docket number is found, and the
    file name, with its leading blank, becomes the docket. *)
Definition case_padded : Case :=
  mkCase (py " a.mp3") (py "Audio") (Datetime 2024 3 1 0 0 0 0)
    (py "https://x/%20a.mp3").


(** A feed whose only entry has the guid [a.mp3]. *)
Definition padded_feed : Element :=
  Elem (py "rss") [] None None
    [Elem (py "channel") [] None None
       [Elem (py "item") [] None None
          [Elem (py "guid") [] (Some (py "a.mp3")) None []]]].

Definition padded_fs : FS := {[ FEED_PATH := File 128 (Some padded_feed) ]}.

(** A document that parses but has no channel. *)
Definition no_channel_fs : FS :=
  {[ FEED_PATH := File 6 (Some (Elem (py "rss") [] None None [])) ]}.

(** The sample feed, with the asset of [2024-1002] already on disk. *)
Definition asset_fs : FS :=
  <[ py "2024-1002.mp3" := File 4096 None ]> sample_fs.

(** Closes a decidable goal about the scenario by evaluating its decision. *)
Ltac by_evaluation := refine (bool_decide_unpack _ _); vm_compute; exact I.

(** ** Further vocabulary *)


(** ** The index page

    [discover_mp3_links], link by link.  The page as [BeautifulSoup] hands
    it over ([find_all("a", href=True)] with the [href] and the stripped
    text of each link), [urljoin], [str.lower], the clock and the Unicode
    tables behind [\d], [\w] and [int] are arguments.  [os.path] is the
    POSIX one. *)

Module scraper.

Definition ORAL_ARGUMENT_INDEX : str :=
  py "https://cafc.uscourts.gov/home/oral-argument/listen-to-oral-arguments/".

(** A link of the page: [a["href"]] and [a.get_text(strip=True)]. *)
Record anchor := Anchor {
  href : str;
  link_text : str
}.

(** How [discover_mp3_links] can fail: with an exception of the request for
    the page, or with the [ValueError] of [urljoin] or [datetime]. *)
Inductive failure :=
| Request (e : exn)
| ValueError.

(** [os.path.basename]: what follows the last slash. *)
Fixpoint basename (p : str) : str :=
  match p with
  | [] => []
  | c :: p' =>
      if bool_decide (47%N ∈ p') then basename p'
      else if (c =? 47)%N then p' else p
  end.

Definition DAYS_IN_MONTH : list Z := [31; 28; 31; 30; 31; 30; 31; 31; 30; 31; 30; 31].

Definition days_in_month (y m : Z) : Z :=
  nth (Z.to_nat (m - 1)) DAYS_IN_MONTH 0 + (if (m =? 2) && is_leap y then 1 else 0).

(** [datetime(year, month, day)]: [None] is the [ValueError] of a field out
    of range. *)
Definition make_datetime (y m d : Z) : option datetime :=
  if (1 <=? y) && (y <=? 9999) && (1 <=? m) && (m <=? 12) &&
     (1 <=? d) && (d <=? days_in_month y m)
  then Some (Datetime y m d 0 0 0 0)
  else None.

Section scraper.

(** The decimal value of a character, if it is a decimal digit: [\d]
    matches the characters that have one, and [int] reads it. *)
Variable decimal : N → option N.

(** [str.isalnum] on one character. *)
Variable isalnum : N → bool.

(** [str.lower] *)
Variable lower : str → str.

(** [urljoin(base, url)]: [None] is its [ValueError]. *)
Variable urljoin : str → str → option str.

(** [datetime.utcnow()], by the position of the link on the page. *)
Variable utcnow : nat → datetime.

(** The links of the index page, or the exception of [fetch_html]. *)
Variable page : result (list anchor).

Definition isdecimal (c : N) : bool :=
  match decimal c with
  | Some _ => true
  | None => false
  end.

(** What [\w] matches. *)
Definition isword (c : N) : bool := isalnum c || (c =? 95)%N.

(** [\b] between two characters, either of which may be missing at an end
    of the string. *)
Definition boundary (before after : option N) : bool :=
  xorb (from_option isword false before) (from_option isword false after).

(** [\d{n}] at the start of [s]: the digits and what follows. *)
Definition take_digits (n : nat) (s : str) : option (str * str) :=
  if bool_decide (n ≤ length s)%nat && forallb isdecimal (take n s)
  then Some (take n s, drop n s)
  else None.

(** [\d{n}\b] after the hyphen of a docket number. *)
Definition docket_tail (n : nat) (s : str) : option str :=
  match take_digits n s with
  | Some (digits, rest) =>
      if boundary (last digits) (head rest) then Some digits else None
  | None => None
  end.

(** [-] at the start of [s]: what follows the hyphen. *)
Definition after_hyphen (s : str) : option str :=
  match s with
  | c :: rest => if (c =? 45)%N then Some rest else None
  | [] => None
  end.

(** [\b(\d{4}-\d{3,5})\b] at the start of [s], after the character
    [before]: the longest run of digits is tried first. *)
Definition docket_here (before : option N) (s : str) : option str :=
  if boundary before (head s) then
    '(year, s1) ← take_digits 4 s;
    rest ← after_hyphen s1;
    match docket_tail 5 rest with
    | Some number => Some (year ++ 45%N :: number)
    | None =>
        match docket_tail 4 rest with
        | Some number => Some (year ++ 45%N :: number)
        | None =>
            match docket_tail 3 rest with
            | Some number => Some (year ++ 45%N :: number)
            | None => None
            end
        end
    end
  else None.

(** [re.search(r"\b(\d{4}-\d{3,5})\b", s).group(1)]: the leftmost match. *)
Fixpoint search_docket (before : option N) (s : str) : option str :=
  match docket_here before s with
  | Some d => Some d
  | None =>
      match s with
      | [] => None
      | c :: s' => search_docket (Some c) s'
      end
  end.

(** [(\d{2})-(\d{2})-(\d{4})] at the start of [s]: the three groups. *)
Definition date_here (s : str) : option (str * str * str) :=
  '(month, s1) ← take_digits 2 s;
  s2 ← after_hyphen s1;
  '(day, s3) ← take_digits 2 s2;
  s4 ← after_hyphen s3;
  '(year, _) ← take_digits 4 s4;
  Some (month, day, year).

(** [re.search(r"(\d{2})-(\d{2})-(\d{4})", s).groups()] *)
Fixpoint search_date (s : str) : option (str * str * str) :=
  match date_here s with
  | Some groups => Some groups
  | None =>
      match s with
      | [] => None
      | _ :: s' => search_date s'
      end
  end.

(** [int(s)] for a string of decimal digits. *)
Definition int (s : str) : Z :=
  foldl (λ n c, 10 * n + Z.of_N (default 0%N (decimal c))) 0 s.

(** [href.lower().endswith(".mp3")] *)
Definition is_mp3 (a : anchor) : bool :=
  bool_decide (py ".mp3" `suffix_of` lower (href a)).

(** [docket_match.group(1) if docket_match else filename] *)
Definition docket_of (a : anchor) : str :=
  default (basename (href a))
    (search_docket None (basename (href a) ++ py " " ++ link_text a)).

(** The date of the argument: [None] is the [ValueError] of [datetime]. *)
Definition date_of (i : nat) (a : anchor) : option datetime :=
  match search_date (basename (href a)) with
  | Some (month, day, year) => make_datetime (int year) (int month) (int day)
  | None => Some (utcnow i)
  end.

(** The body of the loop, for a link that ends in [.mp3]. *)
Definition case_of_link (i : nat) (a : anchor) : failure + Case :=
  match urljoin ORAL_ARGUMENT_INDEX (href a) with
  | None => inl ValueError
  | Some mp3_url =>
      match date_of i a with
      | None => inl ValueError
      | Some arg_date =>
          inr (mkCase (docket_of a)
                 (match link_text a with [] => docket_of a | text => text end)
                 arg_date mp3_url)
      end
  end.

(** The loop over the links, from the link at position [i] on. *)
Fixpoint scan (i : nat) (links : list anchor) : failure + list Case :=
  match links with
  | [] => inr []
  | a :: links' =>
      if is_mp3 a then
        match case_of_link i a with
        | inl e => inl e
        | inr c =>
            match scan (S i) links' with
            | inl e => inl e
            | inr cases => inr (c :: cases)
            end
        end
      else scan (S i) links'
  end.

Definition discover_mp3_links : failure + list Case :=
  match page with
  | Raise e => inl (Request e)
  | Ok links => scan 0 links
  end.

End scraper.

End scraper.

(** A docket number: four decimal digits, a hyphen, three to five decimal
    digits. *)
Definition docket_number (decimal : N → option N) (d : str) : Prop :=
  ∃ year number,
    d = year ++ 45%N :: number ∧
    length year = 4%nat ∧ (3 ≤ length number ≤ 5)%nat ∧
    Forall (λ c, is_Some (decimal c)) year ∧
    Forall (λ c, is_Some (decimal c)) number.

(** Tables and helpers for pages in ASCII. *)
Definition ascii_decimal (c : N) : option N :=
  if ((48 <=? c) && (c <=? 57))%N then Some (c - 48)%N else None.

Definition ascii_isalnum (c : N) : bool :=
  ((48 <=? c) && (c <=? 57) || (65 <=? c) && (c <=? 90) ||
   (97 <=? c) && (c <=? 122))%N.

Definition ascii_lower (s : str) : str :=
  (λ c, if ((65 <=? c) && (c <=? 90))%N then (c + 32)%N else c) <$> s.

Definition join_relative (base url : str) : option str := Some (base ++ url).

Definition noon (i : nat) : datetime := Datetime 2024 6 1 12 0 (Z.of_nat i) 0.

Definition sample_links : list scraper.anchor :=
  [scraper.Anchor (py "/about.html") (py "About");
   scraper.Anchor (py "audio/2024-1002.03-01-2024.MP3") (py "Smith v. Jones");
   scraper.Anchor (py "audio/ a.mp3") []].

Definition bad_date_links : list scraper.anchor :=
  [scraper.Anchor (py "audio/2024-1002.mp3") (py "Smith v. Jones");
   scraper.Anchor (py "audio/13-45-2024.mp3") (py "2024-1003")].

Definition numbered_links : list scraper.anchor :=
  [scraper.Anchor (py "/about.html") (py "About");
   scraper.Anchor (py "audio/2024-1002.03-01-2024.MP3") (py "Smith v. Jones");
   scraper.Anchor (py "audio/arg.mp3") (py "No. 2023-12345, Doe v. Roe")].

(** The cases the sample links give. *)
Definition sample_cases : list Case :=
  [mkCase (py "2024-1002") (py "Smith v. Jones") (Datetime 2024 3 1 0 0 0 0)
     (scraper.ORAL_ARGUMENT_INDEX ++ py "audio/2024-1002.03-01-2024.MP3");
   mkCase (py " a.mp3") (py " a.mp3") (noon 2)
     (scraper.ORAL_ARGUMENT_INDEX ++ py "audio/ a.mp3")].
(** ** Basic facts *)

Example format_datetime_2024_03_01 :
  format_datetime (Datetime 2024 3 1 0 0 0 0) = py "Fri, 01 Mar 2024 00:00:00 -0000".
Proof. reflexivity. Qed.

Example format_datetime_padding :
  format_datetime (Datetime 5 3 1 4 5 6 7) = py "Tue, 01 Mar 0005 04:05:06 -0000".
Proof. reflexivity. Qed.

Example strip_example : strip (py "  2024-1001 ") = py "2024-1001".
Proof. reflexivity. Qed.

(** A guid that is all white space is truthy, and is read as the empty
    identifier. *)
Example item_guid_blank :
  item_guid (Elem (py "item") [] None None
               [Elem (py "guid") [] (Some (py "  ")) None []]) = Some [].
Proof. reflexivity. Qed.


Lemma bind_Ok {A B} (m : IO A) (k : A → IO B) fs a fs' :
  m fs = (Ok a, fs') → (m ≫= k) fs = k a fs'.
Proof. intros H. unfold mbind, IO_bind. by rewrite H. Qed.

Lemma bind_Raise {A B} (m : IO A) (k : A → IO B) fs e fs' :
  m fs = (Raise e, fs') → (m ≫= k) fs = (Raise e, fs').
Proof. intros H. unfold mbind, IO_bind. by rewrite H. Qed.

Lemma ET_parse_Ok fs path root :
  feed_root fs path = Some root → ET_parse path fs = (Ok root, fs).
Proof.
  unfold feed_root, ET_parse. destruct (fs !! path) as [f|]; [|done].
  simpl. by intros ->.
Qed.

Lemma ET_parse_frame fs path : snd (ET_parse path fs) = fs.
Proof.
  unfold ET_parse. destruct (fs !! path) as [f|]; [|done].
  by destruct (f_parse f).
Qed.

Lemma foldl_add_guid (items : list Element) (guids : gset str) :
  foldl add_guid guids items = list_to_set (omap item_guid items) ∪ guids.
Proof.
  revert guids. induction items as [|item items IH]; intros guids; simpl.
  - set_solver.
  - rewrite IH. unfold add_guid.
    destruct (item_guid item); simpl; set_solver.
Qed.

Lemma item_guid_Some (item : Element) (g : str) :
  item_guid item = Some g ↔
  ∃ j guid_el t, find (py "guid") item = Some (j, guid_el) ∧
                 text guid_el = Some t ∧ t ≠ [] ∧ g = strip t.
Proof.
  unfold item_guid. split.
  - destruct (find _ item) as [[j guid_el]|]; [|done].
    destruct (text guid_el) as [[|c t]|] eqn:Ht; simpl; try done.
    intros [= <-]. by exists j, guid_el, (c :: t).
  - intros (j & guid_el & t & -> & -> & Hne & ->).
    by destruct t.
Qed.

Lemma load_existing_guids_Ok fs feed_path root :
  feed_root fs feed_path = Some root →
  is_Some (find (py "channel") root) →
  load_existing_guids feed_path fs = (Ok (list_to_set (entry_ids root)), fs).
Proof.
  intros Hroot [[i channel] Hch]. unfold load_existing_guids.
  rewrite (bind_Ok _ _ _ _ _ (ET_parse_Ok _ _ _ Hroot)).
  unfold entry_ids, entries. rewrite Hch. unfold mret, IO_ret.
  f_equal. f_equal. rewrite foldl_add_guid. set_solver.
Qed.

Lemma load_existing_guids_frame fs feed_path :
  snd (load_existing_guids feed_path fs) = fs.
Proof.
  unfold load_existing_guids, mbind, IO_bind.
  pose proof (ET_parse_frame fs feed_path) as Hfr.
  destruct (ET_parse feed_path fs) as [[root|e] fs']; simpl in Hfr; subst; [|done].
  by destruct (find _ root) as [[i channel]|].
Qed.

(** *** The tree after an append *)







(** *** Paths *)


Lemma feed_root_insert fs path f :
  feed_root (<[ path := f ]> fs) path = f_parse f.
Proof. unfold feed_root. by rewrite lookup_insert_eq. Qed.


(** *** What one append and one download do to the disk *)

Section disk.

Context (open_fault : str → option exn)
        (write_fault : str → option (exn * nat))
        (xml_size : Element → N)
        (xml_of_bytes : list N → option Element)
        (http_get : str → result response).

Local Abbreviation ET_write := (update_feed.ET_write open_fault write_fault xml_size).
Local Abbreviation add_item_to_feed :=
  (update_feed.add_item_to_feed open_fault write_fault xml_size).
Local Abbreviation download_mp3 :=
  (update_feed.download_mp3 open_fault write_fault xml_of_bytes http_get).
Local Abbreviation process_case :=
  (update_feed.process_case open_fault write_fault xml_size xml_of_bytes http_get).

Lemma add_item_to_feed_run fs feed_path case local_filename file_size root i channel :
  feed_root fs feed_path = Some root →
  find (py "channel") root = Some (i, channel) →
  add_item_to_feed feed_path case local_filename file_size fs
  = ET_write feed_path
      (with_new_item root i channel (new_item case local_filename file_size)) fs.
Proof using Type.
  intros Hroot Hch. unfold update_feed.add_item_to_feed.
  rewrite (bind_Ok _ _ _ _ _ (ET_parse_Ok _ _ _ Hroot)). by rewrite Hch.
Qed.

Lemma ET_write_frame fs path root r fs' q :
  ET_write path root fs = (r, fs') → q ≠ path → fs' !! q = fs !! q.
Proof using Type.
  unfold update_feed.ET_write. intros Hrun Hq.
  destruct (open_fault path); [by simplify_eq|].
  destruct (write_fault path) as [[e k]|]; simplify_eq;
    by rewrite lookup_insert_ne.
Qed.


Lemma add_item_to_feed_frame fs feed_path case local_filename file_size r fs' q :
  add_item_to_feed feed_path case local_filename file_size fs = (r, fs') →
  q ≠ feed_path → fs' !! q = fs !! q.
Proof using Type.
  unfold update_feed.add_item_to_feed, mbind, IO_bind. intros Hrun Hq.
  pose proof (ET_parse_frame fs feed_path) as Hfr.
  destruct (ET_parse feed_path fs) as [[root|e] fs1]; simpl in Hfr; subst fs1;
    [|by simplify_eq].
  destruct (find _ root) as [[i channel]|]; [|unfold raise in Hrun; by simplify_eq].
  eauto using ET_write_frame.
Qed.


Lemma download_mp3_frame fs mp3_url out_path r fs' q :
  download_mp3 mp3_url out_path fs = (r, fs') →
  q ≠ out_path → fs' !! q = fs !! q.
Proof using Type.
  unfold update_feed.download_mp3, mbind, IO_bind, of_result, write_bytes.
  intros Hrun Hq.
  destruct (http_get mp3_url) as [resp|e]; [|by simplify_eq].
  destruct (open_fault out_path); [by simplify_eq|].
  destruct (write_fault out_path) as [[e k]|]; [simplify_eq; by rewrite lookup_insert_ne|].
  destruct (stream_error resp).
  - unfold raise in Hrun. simplify_eq. by rewrite lookup_insert_ne.
  - unfold getsize in Hrun.
    destruct (_ !! out_path); simplify_eq; by rewrite lookup_insert_ne.
Qed.


End disk.

(** *** White space *)

Lemma lstrip_head s :
  match lstrip s with
  | [] => True
  | c :: _ => isspace c = false
  end.
Proof.
  induction s as [|c s IH]; simpl; [done|].
  destruct (isspace c) eqn:Hc; [done|]. simpl. done.
Qed.

Lemma lstrip_snoc s c : isspace c = false → lstrip (s ++ [c]) = lstrip s ++ [c].
Proof.
  intros Hc. induction s as [|c' s IH]; simpl; [by rewrite Hc|].
  by destruct (isspace c').
Qed.

Lemma lstrip_idemp s : lstrip (lstrip s) = lstrip s.
Proof.
  induction s as [|c s IH]; simpl; [done|].
  destruct (isspace c) eqn:Hc; [done|]. simpl. by rewrite Hc.
Qed.

Lemma rstrip_cons c s : isspace c = false → rstrip (c :: s) = c :: rstrip s.
Proof.
  intros Hc. unfold rstrip. rewrite reverse_cons, lstrip_snoc by done.
  by rewrite reverse_app.
Qed.

Lemma strip_idemp s : strip (strip s) = strip s.
Proof.
  unfold strip. pose proof (lstrip_head s) as Hhd.
  destruct (lstrip s) as [|c u]; [done|].
  rewrite rstrip_cons by done. simpl. rewrite Hhd.
  rewrite <-rstrip_cons by done. unfold rstrip.
  by rewrite reverse_involutive, lstrip_idemp.
Qed.

Lemma entry_ids_trimmed root g : g ∈ entry_ids root → trimmed g.
Proof.
  unfold entry_ids. intros (item & _ & Hg)%list_elem_of_omap.
  apply item_guid_Some in Hg as (j & guid_el & t & _ & _ & _ & ->).
  apply strip_idemp.
Qed.

(** *** Lists *)




Lemma filter_nil_Forall {A} (P : A → Prop) `{!∀ x, Decision (P x)} (l : list A) :
  Forall (λ x, ¬ P x) l → filter P l = [].
Proof.
  induction 1 as [|x l Hx _ IH]; [done|]. by rewrite filter_cons_False.
Qed.

(** *** The candidates that are processed *)




Lemma select_new_sublist cases existing :
  select_new cases existing `sublist_of` cases.
Proof. apply sublist_filter. Qed.

Lemma elem_of_select_new cases existing c :
  c ∈ select_new cases existing ↔ c ∈ cases ∧ docket c ∉ existing.
Proof. unfold select_new. rewrite list_elem_of_filter. tauto. Qed.

Lemma select_new_maximal cases existing l :
  l `sublist_of` cases →
  Forall (λ c, docket c ∉ existing) l →
  l `sublist_of` select_new cases existing.
Proof.
  unfold select_new. induction 1 as [|c l1 l2 _ IH|c l1 l2 _ IH]; intros Hall.
  - done.
  - apply Forall_cons in Hall as [Hc Hall].
    rewrite filter_cons_True by done. apply sublist_skip; auto.
  - rewrite filter_cons. destruct (decide _); [apply sublist_cons|]; auto.
Qed.

(** *** The loop of [main] *)

Section pipeline.

Context (open_fault : str → option exn)
        (write_fault : str → option (exn * nat))
        (xml_size : Element → N)
        (xml_of_bytes : list N → option Element)
        (http_get : str → result response).

Local Abbreviation process_case :=
  (update_feed.process_case open_fault write_fault xml_size xml_of_bytes http_get).
Local Abbreviation main :=
  (update_feed.main open_fault write_fault xml_size xml_of_bytes http_get).


Lemma load_existing_guids_Raise fs feed_path :
  ¬ well_formed_feed fs feed_path →
  ∃ e, load_existing_guids feed_path fs = (Raise e, fs) ∧
       (fs !! feed_path = None ∧ e = FileNotFoundError ∨
        (∃ f, fs !! feed_path = Some f ∧ f_parse f = None) ∧ e = ParseError ∨
        (∃ root, feed_root fs feed_path = Some root ∧
                 find (py "channel") root = None) ∧ e = AttributeError).
Proof using Type.
  intros Hbad. unfold load_existing_guids, mbind, IO_bind, ET_parse, feed_root.
  destruct (fs !! feed_path) as [f|] eqn:Hf; cbn; [|eauto 10].
  destruct (f_parse f) as [root|] eqn:Hparse; [|eauto 10].
  destruct (find (py "channel") root) as [[i channel]|] eqn:Hch.
  - destruct Hbad. unfold well_formed_feed, feed_root. rewrite Hf. cbn.
    rewrite Hparse, Hch. eauto.
  - exists AttributeError. split; [done|]. right; right. eauto.
Qed.

Lemma main_malformed fs index_cases :
  ¬ well_formed_feed fs FEED_PATH →
  ∃ e, main index_cases fs = (Raise e, fs) ∧
       ∀ cases, index_cases = Ok cases →
                load_existing_guids FEED_PATH fs = (Raise e, fs).
Proof using Type.
  intros (e & Hload & _)%load_existing_guids_Raise.
  unfold update_feed.main, discover_mp3_links, of_result, mbind at 1, IO_bind at 1.
  destruct index_cases as [cases|e0].
  - exists e. split; [|done]. by rewrite (bind_Raise _ _ _ _ _ Hload).
  - exists e0. split; [done|]. by intros cases [=].
Qed.

Lemma main_run fs cases root :
  feed_root fs FEED_PATH = Some root →
  is_Some (find (py "channel") root) →
  main (Ok cases) fs
  = for_each process_case (select_new cases (list_to_set (entry_ids root))) fs.
Proof using Type.
  intros Hroot Hch.
  unfold update_feed.main, discover_mp3_links, of_result, mbind at 1, IO_bind at 1.
  rewrite (bind_Ok _ _ _ _ _ (load_existing_guids_Ok _ _ _ Hroot Hch)).
  by destruct (select_new _ _).
Qed.

End pipeline.

(** *** Stored guids against candidate dockets *)

(** A stored guid whose stripped text is the docket of a candidate keeps
    that candidate out of the new cases. *)
Lemma stored_guid_suppresses cases root item c :
  item ∈ entries root →
  item_guid item = Some (docket c) →
  c ∉ select_new cases (list_to_set (entry_ids root)).
Proof.
  intros Hitem Hguid [_ Hfresh]%elem_of_select_new. apply Hfresh.
  apply elem_of_list_to_set, list_elem_of_omap. eauto.
Qed.

(** A candidate whose docket has white space around it is always new. *)
Lemma untrimmed_always_new cases root c :
  c ∈ cases →
  ¬ trimmed (docket c) →
  c ∈ select_new cases (list_to_set (entry_ids root)).
Proof.
  intros Hc Hpad. apply elem_of_select_new. split; [done|].
  intros Hin%elem_of_list_to_set. by apply entry_ids_trimmed in Hin.
Qed.

(** ** The claims of the specification *)

(** *** Selection of the new cases *)

(** C1. [select_new], the comprehension that computes [new_cases] in [main],
    keeps exactly the candidates whose docket is absent from the existing
    guids: a candidate is in the result if and only if it is a candidate with
    an absent docket; the result is a sublist of the candidates, so their
    discovery order is preserved; it is the largest such sublist, so every
    occurrence of a kept candidate stays; and with no existing guid at all
    the candidates come back unchanged. *)
Theorem select_new_spec (cands : list Case) (existing : gset str) :
  (∀ c, c ∈ select_new cands existing ↔ c ∈ cands ∧ docket c ∉ existing) ∧
  select_new cands existing `sublist_of` cands ∧
  (∀ l, l `sublist_of` cands → Forall (λ c, docket c ∉ existing) l →
        l `sublist_of` select_new cands existing) ∧
  select_new cands ∅ = cands.
Proof.
  split_and!.
  - apply elem_of_select_new.
  - apply select_new_sublist.
  - apply select_new_maximal.
  - unfold select_new. induction cands as [|c cands IH]; [done|].
    rewrite filter_cons_True by set_solver. by rewrite IH.
Qed.

(** *** Reading the identifiers *)

(** C7. On a document that parses and has a channel, [load_existing_guids]
    returns normally, leaves the file system as it found it, and returns
    exactly the stripped guid texts of the items of the channel: an
    identifier is in the result if and only if some [<item>] has a first
    [<guid>] child with a non-empty text that strips to it.  Items without a
    [<guid>], or whose guid has no text or an empty one, add nothing and
    raise nothing. *)
Theorem load_existing_guids_spec (fs : FS) (feed_path : str)
    (root : Element) (i : nat) (channel : Element) :
  feed_root fs feed_path = Some root →
  find (py "channel") root = Some (i, channel) →
  ∃ guids,
    load_existing_guids feed_path fs = (Ok guids, fs) ∧
    ∀ g, g ∈ guids ↔
         ∃ item j guid_el t,
           item ∈ findall (py "item") channel ∧
           find (py "guid") item = Some (j, guid_el) ∧
           text guid_el = Some t ∧ t ≠ [] ∧ g = strip t.
Proof.
  intros Hroot Hch. exists (list_to_set (entry_ids root)). split.
  - apply load_existing_guids_Ok; eauto.
  - intros g. rewrite elem_of_list_to_set. unfold entry_ids, entries.
    rewrite Hch, list_elem_of_omap. split.
    + intros (item & Hin & (j & guid_el & t & ?)%item_guid_Some).
      by exists item, j, guid_el, t.
    + intros (item & j & guid_el & t & Hin & ?).
      exists item. split; [done|]. apply item_guid_Some. by exists j, guid_el, t.
Qed.

Lemma load_existing_guids_spec_witness :
  ∃ guids,
    load_existing_guids FEED_PATH sample_fs = (Ok guids, sample_fs) ∧
    ∀ g, g ∈ guids ↔
         ∃ item j guid_el t,
           item ∈ findall (py "item") sample_channel ∧
           find (py "guid") item = Some (j, guid_el) ∧
           text guid_el = Some t ∧ t ≠ [] ∧ g = strip t.
Proof.
  apply (load_existing_guids_spec sample_fs FEED_PATH sample_feed 0 sample_channel);
    vm_compute; reflexivity.
Defined.

Section claims.

Context (open_fault : str → option exn)
        (write_fault : str → option (exn * nat))
        (xml_size : Element → N)
        (xml_of_bytes : list N → option Element)
        (http_get : str → result response).

Local Abbreviation ET_write := (update_feed.ET_write open_fault write_fault xml_size).
Local Abbreviation add_item_to_feed :=
  (update_feed.add_item_to_feed open_fault write_fault xml_size).
Local Abbreviation process_case :=
  (update_feed.process_case open_fault write_fault xml_size xml_of_bytes http_get).
Local Abbreviation main :=
  (update_feed.main open_fault write_fault xml_size xml_of_bytes http_get).

(** C8, as the script has it.  When [feed.xml] is missing, does not parse
    or has no channel, [load_existing_guids] raises [FileNotFoundError],
    [ParseError] or [AttributeError] respectively; the script has no
    [MalformedDocument] class.  The exception is fatal: [main] raises too,
    the same exception once the index page was listed, and the file system
    is exactly as it was, so no entry was processed and no file written. *)
Theorem load_existing_guids_malformed (fs : FS) (index_cases : result (list Case)) :
  ¬ well_formed_feed fs FEED_PATH →
  ∃ e,
    load_existing_guids FEED_PATH fs = (Raise e, fs) ∧
    (fs !! FEED_PATH = None ∧ e = FileNotFoundError ∨
     (∃ f, fs !! FEED_PATH = Some f ∧ f_parse f = None) ∧ e = ParseError ∨
     (∃ root, feed_root fs FEED_PATH = Some root ∧
              find (py "channel") root = None) ∧ e = AttributeError) ∧
    exn_name e ≠ "MalformedDocument"%string ∧
    ∃ e', main index_cases fs = (Raise e', fs) ∧
          ∀ cases, index_cases = Ok cases → e' = e.
Proof using Type.
  intros Hbad.
  destruct (load_existing_guids_Raise fs FEED_PATH Hbad) as (e & Hload & Hwhy).
  exists e. split_and!; [done|done|by destruct e|].
  destruct (main_malformed open_fault write_fault xml_size xml_of_bytes http_get
              fs index_cases Hbad) as (e' & Hmain & Hsame).
  exists e'. split; [done|]. intros cases Hcases.
  specialize (Hsame cases Hcases). congruence.
Qed.

(** *** Appending an entry *)



(** C6, as the script has it.  [tree.write] opens the destination, which
    empties it, and then serialises.  On a document that parses and has a
    channel: if the destination cannot be opened, [add_item_to_feed]
    raises the exception of [open] and the file system is unchanged; if
    the write fails after the file was opened, it raises the exception of
    the write and the document is left with the bytes that reached the
    disk, which no longer parse.  In either case the exception is not a
    [PersistenceError], a class the script does not have. *)
Theorem add_item_to_feed_failure (fs : FS) (feed_path : str) (case : Case)
    (local_filename : str) (file_size : N)
    (root : Element) (i : nat) (channel : Element) (e : exn) :
  feed_root fs feed_path = Some root →
  find (py "channel") root = Some (i, channel) →
  open_fault feed_path = Some e ∨
  open_fault feed_path = None ∧ (∃ k, write_fault feed_path = Some (e, k)) →
  ∃ fs',
    add_item_to_feed feed_path case local_filename file_size fs = (Raise e, fs') ∧
    exn_name e ≠ "PersistenceError"%string ∧
    (open_fault feed_path = Some e → fs' = fs) ∧
    (∀ k, open_fault feed_path = None → write_fault feed_path = Some (e, k) →
          fs' = <[ feed_path := File (N.of_nat k) None ]> fs ∧
          feed_root fs' feed_path = None ∧
          feed_root fs' feed_path ≠ feed_root fs feed_path).
Proof using Type.
  intros Hroot Hch Hfault.
  erewrite add_item_to_feed_run; [|exact Hroot|exact Hch].
  unfold update_feed.ET_write.
  destruct Hfault as [Hopen|[Hopen [k Hwrite]]]; rewrite Hopen; [|rewrite Hwrite].
  - exists fs. split_and!; [done|by destruct e|done|]. by intros k [=].
  - exists (<[ feed_path := File (N.of_nat k) None ]> fs).
    split_and!; [done|by destruct e|by intros [=]|].
    intros k' _ [= <-]. rewrite feed_root_insert, Hroot. done.
Qed.


End claims.

(** *** Whole runs *)

Section runs.

Context (open_fault : str → option exn)
        (write_fault : str → option (exn * nat))
        (xml_size : Element → N)
        (xml_of_bytes : list N → option Element)
        (http_get : str → result response).

Local Abbreviation process_case :=
  (update_feed.process_case open_fault write_fault xml_size xml_of_bytes http_get).
Local Abbreviation main :=
  (update_feed.main open_fault write_fault xml_size xml_of_bytes http_get).



End runs.

(** ** The claims on the worked scenario *)

Lemma load_existing_guids_malformed_witness :
  ∃ e,
    load_existing_guids FEED_PATH no_channel_fs = (Raise e, no_channel_fs) ∧
    (no_channel_fs !! FEED_PATH = None ∧ e = FileNotFoundError ∨
     (∃ f, no_channel_fs !! FEED_PATH = Some f ∧ f_parse f = None) ∧ e = ParseError ∨
     (∃ root, feed_root no_channel_fs FEED_PATH = Some root ∧
              find (py "channel") root = None) ∧ e = AttributeError) ∧
    exn_name e ≠ "MalformedDocument"%string ∧
    ∃ e', main no_open_fault no_write_fault count_children not_xml three_chunks
            (Ok [case_1002]) no_channel_fs = (Raise e', no_channel_fs) ∧
          ∀ cases, Ok [case_1002] = Ok cases → e' = e.
Proof.
  apply (load_existing_guids_malformed no_open_fault no_write_fault count_children
           not_xml three_chunks no_channel_fs (Ok [case_1002])).
  by_evaluation.
Defined.

(** C8 as stated fails: on a missing [feed.xml] the exception is a
    [FileNotFoundError], and on a document without a channel it is an
    [AttributeError]; neither is a [MalformedDocument]. *)
Lemma load_existing_guids_not_MalformedDocument :
  ¬ well_formed_feed ∅ FEED_PATH ∧
  load_existing_guids FEED_PATH ∅ = (Raise FileNotFoundError, ∅) ∧
  ¬ well_formed_feed no_channel_fs FEED_PATH ∧
  load_existing_guids FEED_PATH no_channel_fs = (Raise AttributeError, no_channel_fs) ∧
  ¬ (∃ e fs', load_existing_guids FEED_PATH ∅ = (Raise e, fs') ∧
              exn_name e = "MalformedDocument"%string).
Proof.
  split_and!.
  - by_evaluation.
  - vm_compute. reflexivity.
  - by_evaluation.
  - vm_compute. reflexivity.
  - intros (e & fs' & Hrun & Hname).
    assert (load_existing_guids FEED_PATH ∅ = (Raise FileNotFoundError, ∅)) as Hrun'
      by (vm_compute; reflexivity).
    rewrite Hrun' in Hrun. by simplify_eq.
Qed.




Lemma add_item_to_feed_failure_witness :
  ∃ fs',
    add_item_to_feed no_open_fault disk_full count_children FEED_PATH
      case_1002 (py "2024-1002.mp3") 4 sample_fs = (Raise OSError, fs') ∧
    exn_name OSError ≠ "PersistenceError"%string ∧
    (no_open_fault FEED_PATH = Some OSError → fs' = sample_fs) ∧
    (∀ k, no_open_fault FEED_PATH = None → disk_full FEED_PATH = Some (OSError, k) →
          fs' = <[ FEED_PATH := File (N.of_nat k) None ]> sample_fs ∧
          feed_root fs' FEED_PATH = None ∧
          feed_root fs' FEED_PATH ≠ feed_root sample_fs FEED_PATH).
Proof.
  apply (add_item_to_feed_failure no_open_fault disk_full count_children
           sample_fs FEED_PATH case_1002 (py "2024-1002.mp3") 4
           sample_feed 0 sample_channel OSError).
  - vm_compute. reflexivity.
  - vm_compute. reflexivity.
  - right. split; [reflexivity|]. exists 40%nat. reflexivity.
Defined.

(** C6 as stated fails: when the write fails after [feed.xml] was opened,
    the exception is an [OSError], not a [PersistenceError], and the
    document on disk is no longer the one that was there: it held a tree
    and now holds forty bytes that do not parse. *)
Lemma add_item_to_feed_not_atomic :
  let run :=
    add_item_to_feed no_open_fault disk_full count_children FEED_PATH
      case_1002 (py "2024-1002.mp3") 4 sample_fs in
  run.1 = Raise OSError ∧
  sample_fs !! FEED_PATH = Some (File 512 (Some sample_feed)) ∧
  run.2 !! FEED_PATH = Some (File 40 None) ∧
  ¬ (∃ e, run.1 = Raise e ∧ exn_name e = "PersistenceError"%string ∧
          run.2 = sample_fs).
Proof.
  split_and!; try (vm_compute; reflexivity).
  intros (e & _ & _ & Hsame).
  apply (f_equal (λ fs : FS, f_size <$> fs !! FEED_PATH)) in Hsame.
  vm_compute in Hsame. discriminate.
Qed.

(** A destination that cannot be opened: the exception is the
    [PermissionError] of [open], and nothing on disk has changed. *)
Example add_item_to_feed_read_only :
  add_item_to_feed read_only no_write_fault count_children FEED_PATH
    case_1002 (py "2024-1002.mp3") 4 sample_fs
  = (Raise PermissionError, sample_fs).
Proof. vm_compute. reflexivity. Qed.






(** C10 at a failing input.  The feed holds the guid [a.mp3]; the candidate
    has the docket [" a.mp3"], which differs from it only by the leading
    blank.  [load_existing_guids] returns the stripped guid, the candidate
    is compared as it stands and is kept as new, and the run writes its
    docket with the blank: the document then has two entries, which are
    read back as the same identifier. *)
Theorem padded_docket_is_not_suppressed :
  let run :=
    main no_open_fault no_write_fault count_children not_xml three_chunks
      (Ok [case_padded]) padded_fs in
  omap raw_guid (entries padded_feed) = [py "a.mp3"] ∧
  strip (docket case_padded) = strip (py "a.mp3") ∧
  load_existing_guids FEED_PATH padded_fs = (Ok {[ py "a.mp3" ]}, padded_fs) ∧
  select_new [case_padded] {[ py "a.mp3" ]} = [case_padded] ∧
  run.1 = Ok tt ∧
  omap raw_guid <$> (entries <$> feed_root run.2 FEED_PATH)
  = Some [py "a.mp3"; py " a.mp3"] ∧
  entry_ids <$> feed_root run.2 FEED_PATH = Some [py "a.mp3"; py "a.mp3"].
Proof.
  split_and!; vm_compute; reflexivity.
Qed.

(** The scenario of the specification: of the candidates [2024-1001] and
    [2024-1002] only the second is processed; the document then has two
    items, and the new one has the guid [2024-1002] and the pubDate of
    1 March 2024. *)
Example scenario_one_new_case :
  let run :=
    main no_open_fault no_write_fault count_children not_xml three_chunks
      (Ok [case_1001; case_1002]) sample_fs in
  select_new [case_1001; case_1002] {[ py "2024-1001" ]} = [case_1002] ∧
  run.1 = Ok tt ∧
  length <$> (entries <$> feed_root run.2 FEED_PATH) = Some 2%nat ∧
  (entries <$> feed_root run.2 FEED_PATH) ≫= last
  = Some (new_item case_1002 (py "2024-1002.mp3") 4) ∧
  children (new_item case_1002 (py "2024-1002.mp3") 4) !! 3%nat
  = Some (Elem (py "pubDate") [] (Some (py "Fri, 01 Mar 2024 00:00:00 -0000"))
            None []) ∧
  f_size <$> run.2 !! py "2024-1002.mp3" = Some 4%N ∧
  f_size <$> run.2 !! py "2024-1001.mp3" = None.
Proof.
  split_and!; vm_compute; reflexivity.
Qed.

(** ** Further properties of the script *)

(** *** White space at the ends *)

Lemma lstrip_suffix s : lstrip s `suffix_of` s.
Proof.
  induction s as [|c s IH]; simpl; [done|].
  destruct (isspace c); [by apply suffix_cons_r|done].
Qed.

Lemma strip_head s c : head (strip s) = Some c → isspace c = false.
Proof.
  unfold strip. pose proof (lstrip_head s) as Hhd.
  destruct (lstrip s) as [|c' u]; [done|].
  rewrite rstrip_cons by done. simpl. by intros [= <-].
Qed.

Lemma strip_last s c : last (strip s) = Some c → isspace c = false.
Proof.
  unfold strip, rstrip. rewrite last_reverse.
  pose proof (lstrip_head (reverse (lstrip s))) as Hhd.
  destruct (lstrip (reverse (lstrip s))); [done|]. simpl. by intros [= <-].
Qed.

Lemma load_existing_guids_inv fs feed_path guids fs' :
  load_existing_guids feed_path fs = (Ok guids, fs') →
  ∃ root, feed_root fs feed_path = Some root ∧
          is_Some (find (py "channel") root) ∧
          guids = list_to_set (entry_ids root) ∧ fs' = fs.
Proof.
  intros Hrun.
  destruct (feed_root fs feed_path) as [root|] eqn:Hroot.
  - destruct (find (py "channel") root) as [[i channel]|] eqn:Hch.
    + rewrite (load_existing_guids_Ok _ _ root) in Hrun by eauto.
      simplify_eq. exists root. eauto.
    + unfold load_existing_guids in Hrun.
      rewrite (bind_Ok _ _ _ _ _ (ET_parse_Ok _ _ _ Hroot)), Hch in Hrun.
      discriminate.
  - unfold load_existing_guids, mbind, IO_bind, ET_parse, feed_root in *.
    destruct (fs !! feed_path) as [f|]; [|discriminate]. simpl in *.
    rewrite Hroot in Hrun. discriminate.
Qed.

Lemma concat_nonempty (l : list (list N)) :
  List.concat (filter (λ chunk, chunk ≠ []) l) = List.concat l.
Proof.
  induction l as [|chunk l IH]; [done|]. rewrite filter_cons.
  destruct (decide (chunk ≠ [])) as [|Hnil]; simpl; [by rewrite IH|].
  apply dec_stable in Hnil. by rewrite Hnil, IH.
Qed.

Lemma length_concat_chunks (l : list (list N)) :
  length (List.concat l) = sum_list (length <$> l).
Proof.
  induction l as [|chunk l IH]; [done|]. simpl. by rewrite length_app, IH.
Qed.


Section more.

Context (open_fault : str → option exn)
        (write_fault : str → option (exn * nat))
        (xml_size : Element → N)
        (xml_of_bytes : list N → option Element)
        (http_get : str → result response).

Local Abbreviation raw_file := (update_feed.raw_file xml_of_bytes).
Local Abbreviation ET_write := (update_feed.ET_write open_fault write_fault xml_size).
Local Abbreviation add_item_to_feed :=
  (update_feed.add_item_to_feed open_fault write_fault xml_size).
Local Abbreviation download_mp3 :=
  (update_feed.download_mp3 open_fault write_fault xml_of_bytes http_get).
Local Abbreviation process_case :=
  (update_feed.process_case open_fault write_fault xml_size xml_of_bytes http_get).
Local Abbreviation main :=
  (update_feed.main open_fault write_fault xml_size xml_of_bytes http_get).

Lemma process_case_unfold fs case :
  process_case case fs
  = match (if bool_decide (is_Some (fs !! local_filename_of (docket case)))
           then getsize (local_filename_of (docket case)) fs
           else download_mp3 (mp3_url case) (local_filename_of (docket case)) fs)
    with
    | (Ok size, fs1) =>
        add_item_to_feed FEED_PATH case (local_filename_of (docket case)) size fs1
    | (Raise e, fs1) => (Raise e, fs1)
    end.
Proof using Type.
  unfold update_feed.process_case, path_exists, mbind, IO_bind.
  by destruct (bool_decide _).
Qed.

Lemma download_mp3_Ok fs mp3_url out_path resp :
  http_get mp3_url = Ok resp →
  stream_error resp = None →
  open_fault out_path = None →
  write_fault out_path = None →
  download_mp3 mp3_url out_path fs
  = (Ok (N.of_nat (length (List.concat (chunks resp)))),
     <[ out_path := raw_file (List.concat (chunks resp)) ]> fs).
Proof using Type.
  intros Hget Hstream Hopen Hwrite.
  unfold update_feed.download_mp3, mbind, IO_bind, of_result, write_bytes, getsize.
  rewrite Hget, Hopen, Hwrite, Hstream, lookup_insert_eq, concat_nonempty. done.
Qed.


Lemma fetch_size_frame fs case r fs1 :
  (if bool_decide (is_Some (fs !! local_filename_of (docket case)))
   then getsize (local_filename_of (docket case)) fs
   else download_mp3 (mp3_url case) (local_filename_of (docket case)) fs)
  = (r, fs1) →
  ∀ p, is_Some (fs !! p) ∨ p ≠ local_filename_of (docket case) →
       fs1 !! p = fs !! p.
Proof using Type.
  intros Hrun p Hp. case_bool_decide as Hasset.
  - unfold getsize in Hrun. destruct (fs !! _); by simplify_eq.
  - eapply download_mp3_frame; [done|]. intros ->. by destruct Hp.
Qed.


Lemma process_case_other_paths fs case r fs' p :
  process_case case fs = (r, fs') →
  p ≠ FEED_PATH →
  is_Some (fs !! p) ∨ p ≠ local_filename_of (docket case) →
  fs' !! p = fs !! p.
Proof using Type.
  rewrite process_case_unfold. intros Hrun Hfeed Hp.
  destruct (if bool_decide _ then _ else _) as [[size|e] fs1] eqn:Hsize.
  - rewrite <-(fetch_size_frame _ _ _ _ Hsize p Hp).
    by eapply add_item_to_feed_frame.
  - simplify_eq. by eapply fetch_size_frame.
Qed.


Lemma for_each_other_paths new_cases fs r fs' p :
  for_each process_case new_cases fs = (r, fs') →
  p ≠ FEED_PATH →
  is_Some (fs !! p) ∨ p ∉ (λ c, local_filename_of (docket c)) <$> new_cases →
  fs' !! p = fs !! p.
Proof using Type.
  revert fs. induction new_cases as [|c l IH]; intros fs Hrun Hfeed Hp.
  - simpl in Hrun. unfold mret, IO_ret in Hrun. by simplify_eq.
  - simpl in Hrun. unfold mbind, IO_bind in Hrun.
    destruct (process_case c fs) as [r1 fs1] eqn:Hstep.
    assert (fs1 !! p = fs !! p) as Hsame.
    { eapply process_case_other_paths; [done..|].
      destruct Hp as [?|Hp]; [by left|]. right. intros ->. apply Hp. set_solver. }
    destruct r1 as [[]|e]; [|by simplify_eq].
    rewrite <-Hsame. eapply IH; [done..|]. rewrite Hsame.
    destruct Hp as [?|Hp]; [by left|]. right. set_solver.
Qed.

End more.

Section more_properties.

Context (open_fault : str → option exn)
        (write_fault : str → option (exn * nat))
        (xml_size : Element → N)
        (xml_of_bytes : list N → option Element)
        (http_get : str → result response).

Local Abbreviation raw_file := (update_feed.raw_file xml_of_bytes).
Local Abbreviation ET_write := (update_feed.ET_write open_fault write_fault xml_size).
Local Abbreviation add_item_to_feed :=
  (update_feed.add_item_to_feed open_fault write_fault xml_size).
Local Abbreviation download_mp3 :=
  (update_feed.download_mp3 open_fault write_fault xml_of_bytes http_get).
Local Abbreviation process_case :=
  (update_feed.process_case open_fault write_fault xml_size xml_of_bytes http_get).
Local Abbreviation main :=
  (update_feed.main open_fault write_fault xml_size xml_of_bytes http_get).

(** *** Downloads *)

(** When the request succeeds, the stream ends normally and the disk lets
    the write through, [download_mp3] returns the number of bytes of the
    body, the sum of the lengths of its chunks; the destination then holds
    exactly the body, whatever it held before, and no other file has
    changed. *)
Theorem download_mp3_stores_body (fs : FS) (mp3_url out_path : str) (resp : response) :
  http_get mp3_url = Ok resp →
  stream_error resp = None →
  open_fault out_path = None →
  write_fault out_path = None →
  ∃ fs',
    download_mp3 mp3_url out_path fs
    = (Ok (N.of_nat (sum_list (length <$> chunks resp))), fs') ∧
    fs' !! out_path
    = Some (File (N.of_nat (sum_list (length <$> chunks resp)))
              (xml_of_bytes (List.concat (chunks resp)))) ∧
    ∀ p, p ≠ out_path → fs' !! p = fs !! p.
Proof using Type.
  intros Hget Hstream Hopen Hwrite. eexists. split_and!.
  - rewrite (download_mp3_Ok _ _ _ _ _ _ _ _ Hget Hstream Hopen Hwrite).
    by rewrite length_concat_chunks.
  - rewrite lookup_insert_eq. unfold update_feed.raw_file.
    by rewrite length_concat_chunks.
  - intros p Hp. by rewrite lookup_insert_ne.
Qed.

(** When the asset of a case is not on disk and the request for it fails,
    the turn of the loop raises the exception of the request and the file
    system is exactly as it was: no asset file, and the feed untouched. *)
Theorem process_case_fetch_failure (fs : FS) (case : Case) (e : exn) :
  fs !! local_filename_of (docket case) = None →
  http_get (mp3_url case) = Raise e →
  process_case case fs = (Raise e, fs).
Proof using Type.
  intros Habsent Hget. rewrite process_case_unfold.
  rewrite bool_decide_false by (rewrite Habsent; by intros [? ?]).
  unfold update_feed.download_mp3, mbind, IO_bind, of_result. by rewrite Hget.
Qed.



(** *** Whole runs *)

(** When the feed already holds the docket of every candidate, [main]
    returns normally and the file system is exactly as it was: nothing is
    fetched and nothing is written, whatever the network and the disk would
    answer. *)
Theorem main_nothing_new (fs : FS) (cases : list Case) (root : Element) :
  feed_root fs FEED_PATH = Some root →
  is_Some (find (py "channel") root) →
  (∀ c, c ∈ cases → docket c ∈ entry_ids root) →
  main (Ok cases) fs = (Ok tt, fs).
Proof using Type.
  intros Hroot Hch Hold. rewrite (main_run _ _ _ _ _ _ _ _ Hroot Hch).
  unfold select_new. rewrite filter_nil_Forall; [done|].
  apply Forall_forall. intros c Hc Hfresh. apply Hfresh.
  by apply elem_of_list_to_set, Hold.
Qed.


(** [main] writes to [feed.xml] and to the asset files of the candidates
    only, and to an asset file only when it is not there yet: a file other
    than the feed that exists before the run, or whose name is not
    [docket.mp3] for a candidate, is the same after the run, however the
    run ends. *)
Theorem main_other_files_untouched (fs fs' : FS) (cases : list Case)
    (r : result unit) (p : str) :
  main (Ok cases) fs = (r, fs') →
  p ≠ FEED_PATH →
  is_Some (fs !! p) ∨ p ∉ (λ c, local_filename_of (docket c)) <$> cases →
  fs' !! p = fs !! p.
Proof using Type.
  intros Hrun Hfeed Hp.
  destruct (decide (well_formed_feed fs FEED_PATH)) as [Hwf|Hbad].
  - unfold well_formed_feed in Hwf.
    destruct (feed_root fs FEED_PATH) as [root|] eqn:Hroot; [|done].
    rewrite (main_run _ _ _ _ _ _ _ _ Hroot Hwf) in Hrun.
    eapply for_each_other_paths; [done..|].
    destruct Hp as [?|Hp]; [by left|]. right.
    intros (c & -> & [Hc _]%elem_of_select_new)%list_elem_of_fmap.
    apply Hp, list_elem_of_fmap. eauto.
  - destruct (main_malformed open_fault write_fault xml_size xml_of_bytes http_get
                fs (Ok cases) Hbad) as (e & Hmain & _).
    rewrite Hmain in Hrun. by simplify_eq.
Qed.

End more_properties.

Section more_runs.

Context (open_fault : str → option exn)
        (write_fault : str → option (exn * nat))
        (xml_size : Element → N)
        (xml_of_bytes : list N → option Element)
        (http_get : str → result response).

Local Abbreviation add_item_to_feed :=
  (update_feed.add_item_to_feed open_fault write_fault xml_size).
Local Abbreviation process_case :=
  (update_feed.process_case open_fault write_fault xml_size xml_of_bytes http_get).
Local Abbreviation main :=
  (update_feed.main open_fault write_fault xml_size xml_of_bytes http_get).




(** *** Appending to a feed that cannot be used, or that has the entry *)

(** When the feed file is missing, does not parse or has no channel,
    [add_item_to_feed] raises [FileNotFoundError], [ParseError] or
    [TypeError] respectively, and leaves the file system as it was. *)
Theorem add_item_to_feed_malformed (fs : FS) (feed_path : str) (case : Case)
    (local_filename : str) (file_size : N) :
  ¬ well_formed_feed fs feed_path →
  ∃ e,
    add_item_to_feed feed_path case local_filename file_size fs = (Raise e, fs) ∧
    (fs !! feed_path = None ∧ e = FileNotFoundError ∨
     (∃ f, fs !! feed_path = Some f ∧ f_parse f = None) ∧ e = ParseError ∨
     (∃ root, feed_root fs feed_path = Some root ∧
              find (py "channel") root = None) ∧ e = TypeError).
Proof using Type.
  intros Hbad.
  unfold update_feed.add_item_to_feed, mbind, IO_bind, ET_parse, feed_root.
  destruct (fs !! feed_path) as [f|] eqn:Hf; cbn; [|eauto 10].
  destruct (f_parse f) as [root|] eqn:Hparse; [|eauto 10].
  destruct (find (py "channel") root) as [[i channel]|] eqn:Hch.
  - destruct Hbad. unfold well_formed_feed, feed_root. rewrite Hf. cbn.
    rewrite Hparse, Hch. eauto.
  - exists TypeError. split; [done|]. right; right. eauto.
Qed.


End more_runs.

(** *** Stored guids against candidate dockets *)

(** Every identifier [load_existing_guids] returns comes out of [strip]: it
    is unchanged by [strip], and it neither begins nor ends with a
    white-space character. *)
Theorem load_existing_guids_trimmed (fs fs' : FS) (feed_path : str)
    (guids : gset str) (g : str) :
  load_existing_guids feed_path fs = (Ok guids, fs') →
  g ∈ guids →
  strip g = g ∧
  (∀ c, head g = Some c → isspace c = false) ∧
  (∀ c, last g = Some c → isspace c = false).
Proof.
  intros (root & _ & _ & -> & _)%load_existing_guids_inv Hg%elem_of_list_to_set.
  unfold entry_ids in Hg. apply list_elem_of_omap in Hg as (item & _ & Hg).
  apply item_guid_Some in Hg as (j & guid_el & t & _ & _ & _ & ->).
  split_and!.
  - apply strip_idemp.
  - apply strip_head.
  - apply strip_last.
Qed.

(** What the first two steps of [main] amount to.  On a feed that parses
    and has a channel, a candidate is kept as new exactly when no item of
    the channel has a first guid whose text is not empty and, once
    stripped, is the docket of the candidate as it stands. *)
Theorem select_new_against_feed (fs : FS) (feed_path : str) (cases : list Case)
    (root : Element) (i : nat) (channel : Element) :
  feed_root fs feed_path = Some root →
  find (py "channel") root = Some (i, channel) →
  ∃ guids,
    load_existing_guids feed_path fs = (Ok guids, fs) ∧
    ∀ c, c ∈ select_new cases guids ↔
         c ∈ cases ∧
         ¬ ∃ item j guid_el t,
             item ∈ findall (py "item") channel ∧
             find (py "guid") item = Some (j, guid_el) ∧
             text guid_el = Some t ∧ t ≠ [] ∧ strip t = docket c.
Proof.
  intros Hroot Hch. exists (list_to_set (entry_ids root)). split.
  - apply load_existing_guids_Ok; eauto.
  - intros c. rewrite elem_of_select_new, elem_of_list_to_set.
    unfold entry_ids, entries. rewrite Hch, list_elem_of_omap.
    split; intros [Hc Hfresh]; (split; [done|]); intros Hfound; apply Hfresh.
    + destruct Hfound as (item & j & guid_el & t & ? & ? & ? & ? & ?).
      exists item. split; [done|]. apply item_guid_Some. by exists j, guid_el, t.
    + destruct Hfound as (item & ? & (j & guid_el & t & ? & ? & ? & ?)%item_guid_Some).
      by exists item, j, guid_el, t.
Qed.

(** A candidate whose docket begins or ends with white space is kept as
    new whatever the feed holds, since no stripped guid can be equal to
    it. *)
Theorem padded_docket_always_new (fs fs' : FS) (feed_path : str)
    (guids : gset str) (cases : list Case) (c : Case) :
  load_existing_guids feed_path fs = (Ok guids, fs') →
  c ∈ cases →
  strip (docket c) ≠ docket c →
  c ∈ select_new cases guids.
Proof.
  intros (root & _ & _ & -> & _)%load_existing_guids_inv Hc Hpad.
  by apply untrimmed_always_new.
Qed.

Section asset_sizes.

Context (open_fault : str → option exn)
        (write_fault : str → option (exn * nat))
        (xml_size : Element → N)
        (xml_of_bytes : list N → option Element)
        (http_get : str → result response).

Local Abbreviation download_mp3 :=
  (update_feed.download_mp3 open_fault write_fault xml_of_bytes http_get).
Local Abbreviation process_case :=
  (update_feed.process_case open_fault write_fault xml_size xml_of_bytes http_get).



End asset_sizes.

(** *** The further properties on the worked scenario *)

Lemma download_mp3_stores_body_witness :
  ∃ fs',
    download_mp3 no_open_fault no_write_fault not_xml three_chunks
      (py "https://x/a.mp3") (py "2024-1002.mp3") sample_fs
    = (Ok (N.of_nat (sum_list (length <$> [[73; 68; 51]; []; [4]]%N))), fs') ∧
    fs' !! py "2024-1002.mp3"
    = Some (File (N.of_nat (sum_list (length <$> [[73; 68; 51]; []; [4]]%N)))
              (not_xml (List.concat [[73; 68; 51]; []; [4]]%N))) ∧
    ∀ p, p ≠ py "2024-1002.mp3" → fs' !! p = sample_fs !! p.
Proof.
  apply (download_mp3_stores_body no_open_fault no_write_fault not_xml three_chunks
           sample_fs (py "https://x/a.mp3") (py "2024-1002.mp3")
           (Response [[73; 68; 51]; []; [4]]%N None)); reflexivity.
Defined.

Lemma process_case_fetch_failure_witness :
  process_case no_open_fault no_write_fault count_children not_xml offline
    case_1002 sample_fs
  = (Raise RequestException, sample_fs).
Proof.
  apply (process_case_fetch_failure no_open_fault no_write_fault count_children
           not_xml offline sample_fs case_1002 RequestException);
    vm_compute; reflexivity.
Defined.



Lemma main_nothing_new_witness :
  main no_open_fault no_write_fault count_children not_xml offline
    (Ok [case_1001; case_1001]) sample_fs
  = (Ok tt, sample_fs).
Proof.
  apply (main_nothing_new no_open_fault no_write_fault count_children not_xml
           offline sample_fs [case_1001; case_1001] sample_feed).
  - vm_compute. reflexivity.
  - by_evaluation.
  - intros c Hc. assert (c = case_1001) as -> by set_solver. by_evaluation.
Defined.


Lemma main_other_files_untouched_witness :
  (main no_open_fault no_write_fault count_children not_xml three_chunks
     (Ok [case_1001; case_1002]) asset_fs).2 !! py "2024-1002.mp3"
  = asset_fs !! py "2024-1002.mp3".
Proof.
  apply (main_other_files_untouched no_open_fault no_write_fault count_children
           not_xml three_chunks asset_fs _ [case_1001; case_1002]
           (main no_open_fault no_write_fault count_children not_xml three_chunks
              (Ok [case_1001; case_1002]) asset_fs).1).
  - symmetry. apply surjective_pairing.
  - by_evaluation.
  - left. by_evaluation.
Defined.


Lemma add_item_to_feed_malformed_witness :
  ∃ e,
    add_item_to_feed no_open_fault no_write_fault count_children FEED_PATH
      case_1002 (py "2024-1002.mp3") 4 no_channel_fs = (Raise e, no_channel_fs) ∧
    (no_channel_fs !! FEED_PATH = None ∧ e = FileNotFoundError ∨
     (∃ f, no_channel_fs !! FEED_PATH = Some f ∧ f_parse f = None) ∧ e = ParseError ∨
     (∃ root, feed_root no_channel_fs FEED_PATH = Some root ∧
              find (py "channel") root = None) ∧ e = TypeError).
Proof.
  apply (add_item_to_feed_malformed no_open_fault no_write_fault count_children
           no_channel_fs FEED_PATH case_1002 (py "2024-1002.mp3") 4).
  by_evaluation.
Defined.


Lemma load_existing_guids_trimmed_witness :
  strip (py "a.mp3") = py "a.mp3" ∧
  (∀ c, head (py "a.mp3") = Some c → isspace c = false) ∧
  (∀ c, last (py "a.mp3") = Some c → isspace c = false).
Proof.
  apply (load_existing_guids_trimmed padded_fs padded_fs FEED_PATH
           {[ py "a.mp3" ]} (py "a.mp3")).
  - vm_compute. reflexivity.
  - by_evaluation.
Defined.

Lemma select_new_against_feed_witness :
  ∃ guids,
    load_existing_guids FEED_PATH sample_fs = (Ok guids, sample_fs) ∧
    ∀ c, c ∈ select_new [case_1001; case_1002] guids ↔
         c ∈ [case_1001; case_1002] ∧
         ¬ ∃ item j guid_el t,
             item ∈ findall (py "item") sample_channel ∧
             find (py "guid") item = Some (j, guid_el) ∧
             text guid_el = Some t ∧ t ≠ [] ∧ strip t = docket c.
Proof.
  apply (select_new_against_feed sample_fs FEED_PATH [case_1001; case_1002]
           sample_feed 0 sample_channel); vm_compute; reflexivity.
Defined.

Lemma padded_docket_always_new_witness :
  case_padded ∈ select_new [case_1001; case_padded] {[ py "2024-1001" ]}.
Proof.
  apply (padded_docket_always_new sample_fs sample_fs FEED_PATH
           {[ py "2024-1001" ]} [case_1001; case_padded] case_padded).
  - vm_compute. reflexivity.
  - set_solver.
  - by_evaluation.
Defined.


(** ** The index page: properties *)

Lemma basename_no_slash p : 47%N ∉ scraper.basename p.
Proof.
  induction p as [|c p IH]; simpl; [set_solver|].
  case_bool_decide as Hin; [done|].
  destruct (c =? 47)%N eqn:Hc; [done|].
  apply N.eqb_neq in Hc. set_solver.
Qed.

Lemma lstrip_id s :
  (∀ c, head s = Some c → isspace c = false) → lstrip s = s.
Proof. destruct s as [|c s]; [done|]. intros Hc. simpl. by rewrite Hc. Qed.

Lemma strip_id s :
  (∀ c, head s = Some c → isspace c = false) →
  (∀ c, last s = Some c → isspace c = false) →
  strip s = s.
Proof.
  intros Hhead Hlast. unfold strip, rstrip. rewrite (lstrip_id s Hhead).
  rewrite lstrip_id; [apply reverse_involutive|].
  intros c Hc. apply Hlast. by rewrite <-head_reverse.
Qed.

Section scraper_facts.

Context (decimal : N → option N) (isalnum : N → bool).

Local Abbreviation take_digits := (scraper.take_digits decimal).
Local Abbreviation docket_tail := (scraper.docket_tail decimal isalnum).
Local Abbreviation docket_here := (scraper.docket_here decimal isalnum).
Local Abbreviation search_docket := (scraper.search_docket decimal isalnum).

Lemma take_digits_Some n s digits rest :
  take_digits n s = Some (digits, rest) →
  s = digits ++ rest ∧ length digits = n ∧
  Forall (λ c, is_Some (decimal c)) digits.
Proof using Type.
  unfold scraper.take_digits. case_bool_decide as Hlen; simpl; [|done].
  destruct (forallb _ _) eqn:Hall; [|done]. intros [= <- <-]. split_and!.
  - by rewrite take_drop.
  - rewrite length_take. lia.
  - rewrite forallb_forall in Hall. apply Forall_forall. intros c Hc.
    apply list_elem_of_In, Hall in Hc. unfold scraper.isdecimal in Hc.
    by destruct (decimal c).
Qed.

Lemma docket_tail_Some n s number :
  docket_tail n s = Some number →
  (∃ rest, s = number ++ rest) ∧ length number = n ∧
  Forall (λ c, is_Some (decimal c)) number.
Proof using Type.
  unfold scraper.docket_tail.
  destruct (take_digits n s) as [[digits rest]|] eqn:Hdigits; [|done].
  apply take_digits_Some in Hdigits as (-> & <- & Hall).
  destruct (scraper.boundary _ _ _); [|done]. intros [= <-]. eauto.
Qed.

Lemma after_hyphen_Some s rest :
  scraper.after_hyphen s = Some rest → s = 45%N :: rest.
Proof.
  destruct s as [|c s]; simpl; [done|].
  destruct (c =? 45)%N eqn:Hc; [|done]. apply N.eqb_eq in Hc. by intros [= ->]; subst.
Qed.

Lemma docket_here_Some before s d :
  docket_here before s = Some d →
  docket_number decimal d ∧ ∃ rest, s = d ++ rest.
Proof using Type.
  unfold scraper.docket_here. destruct (scraper.boundary _ _ _); [|done].
  destruct (take_digits 4 s) as [[year s1]|] eqn:Hyear; [|done]. simpl.
  apply take_digits_Some in Hyear as (-> & Hlen & Hall).
  destruct (scraper.after_hyphen s1) as [rest|] eqn:Hhyphen; [|done]. simpl.
  apply after_hyphen_Some in Hhyphen as ->.
  intros Hrun.
  assert (∃ n number, (3 ≤ n ≤ 5)%nat ∧ docket_tail n rest = Some number ∧
                      d = year ++ 45%N :: number) as (n & number & Hn & Htail & ->).
  { destruct (docket_tail 5 rest) as [number|] eqn:H5;
      [simplify_eq; exists 5%nat, number; split; [lia|done]|].
    destruct (docket_tail 4 rest) as [number|] eqn:H4;
      [simplify_eq; exists 4%nat, number; split; [lia|done]|].
    destruct (docket_tail 3 rest) as [number|] eqn:H3;
      [simplify_eq; exists 3%nat, number; split; [lia|done]|].
    done. }
  apply docket_tail_Some in Htail as ([rest' ->] & Hlen' & Hall'). split.
  - exists year, number. split_and!; try done; lia.
  - exists rest'. by rewrite <-app_assoc.
Qed.

Lemma search_docket_Some before s d :
  search_docket before s = Some d →
  docket_number decimal d ∧ ∃ l1 l2, s = l1 ++ d ++ l2.
Proof using Type.
  revert before. induction s as [|c s IH]; intros before; simpl.
  - destruct (docket_here before []) as [d'|] eqn:Hhere; [|done].
    intros [= ->]. apply docket_here_Some in Hhere as [? [rest ->]].
    split; [done|]. by exists [], rest.
  - destruct (docket_here before (c :: s)) as [d'|] eqn:Hhere.
    + intros [= ->]. apply docket_here_Some in Hhere as [? [rest Hrest]].
      split; [done|]. exists [], rest. by rewrite Hrest.
    + intros (? & l1 & l2 & ->)%IH. split; [done|]. by exists (c :: l1), l2.
Qed.

End scraper_facts.

Lemma docket_number_chars decimal d c :
  docket_number decimal d → c ∈ d → is_Some (decimal c) ∨ c = 45%N.
Proof.
  intros (year & number & -> & _ & _ & Hyear & Hnumber) Hc.
  rewrite Forall_forall in Hyear, Hnumber.
  apply elem_of_app in Hc as [?|[->|?]%elem_of_cons]; auto.
Qed.

Lemma docket_number_clean decimal d :
  (∀ c, isspace c = true → decimal c = None) →
  docket_number decimal d →
  d ≠ [] ∧ trimmed d.
Proof.
  intros Hspace Hd.
  assert (∀ c, c ∈ d → isspace c = false) as Hchars.
  { intros c [Hc| ->]%(docket_number_chars _ _ _ Hd); [|done].
    destruct (isspace c) eqn:Hsp; [|done].
    rewrite (Hspace c Hsp) in Hc. by destruct Hc. }
  split.
  - destruct Hd as (year & number & -> & _). by destruct year.
  - apply strip_id; intros c Hc; apply Hchars.
    + by apply head_Some_elem_of.
    + by apply last_Some_elem_of.
Qed.

Section discovery.

Context (decimal : N → option N) (isalnum : N → bool) (lower : str → str)
        (urljoin : str → str → option str) (utcnow : nat → datetime).

Local Abbreviation search_docket := (scraper.search_docket decimal isalnum).
Local Abbreviation search_date := (scraper.search_date decimal).
Local Abbreviation int := (scraper.int decimal).
Local Abbreviation is_mp3 := (scraper.is_mp3 lower).
Local Abbreviation docket_of := (scraper.docket_of decimal isalnum).
Local Abbreviation date_of := (scraper.date_of decimal utcnow).
Local Abbreviation case_of_link :=
  (scraper.case_of_link decimal isalnum urljoin utcnow).
Local Abbreviation scan := (scraper.scan decimal isalnum lower urljoin utcnow).
Local Abbreviation discover_mp3_links :=
  (scraper.discover_mp3_links decimal isalnum lower urljoin utcnow).

Lemma case_of_link_inr i a c :
  case_of_link i a = inr c →
  docket c = docket_of a ∧
  title c = (if decide (scraper.link_text a = []) then docket_of a
             else scraper.link_text a) ∧
  urljoin scraper.ORAL_ARGUMENT_INDEX (scraper.href a) = Some (mp3_url c) ∧
  date_of i a = Some (date c).
Proof using Type.
  unfold scraper.case_of_link.
  destruct (urljoin _ _) as [url|]; [|done].
  destruct (date_of i a) as [arg_date|]; [|done].
  intros [= <-]. simpl. split_and!; try done.
  by destruct (scraper.link_text a).
Qed.

Lemma scan_inr i links cases :
  scan i links = inr cases →
  Forall2 (λ a c, ∃ j, case_of_link j a = inr c)
    (filter (λ a, is_mp3 a) links) cases.
Proof using Type.
  revert i cases. induction links as [|a links IH]; intros i cases; simpl.
  - intros [= <-]. constructor.
  - destruct (is_mp3 a) eqn:Hmp3.
    + rewrite filter_cons_True by by rewrite Hmp3.
      destruct (case_of_link i a) as [e|c] eqn:Hcase; [done|].
      destruct (scan (S i) links) as [e|cases'] eqn:Hscan; [done|].
      intros [= <-]. constructor; eauto.
    + rewrite filter_cons_False by (rewrite Hmp3; intros []). eauto.
Qed.

Lemma scan_inl i links e : scan i links = inl e → e = scraper.ValueError.
Proof using Type.
  revert i. induction links as [|a links IH]; intros i; simpl; [done|].
  destruct (is_mp3 a); [|eauto].
  destruct (case_of_link i a) as [e'|c] eqn:Hcase.
  - intros [= <-]. unfold scraper.case_of_link in Hcase.
    destruct (urljoin _ _); [|by simplify_eq].
    destruct (date_of i a); by simplify_eq.
  - destruct (scan (S i) links) as [e'|cases'] eqn:Hscan; [|done].
    intros [= <-]. eauto.
Qed.

Lemma scan_returns i links :
  (∀ a, a ∈ links → is_mp3 a →
        is_Some (urljoin scraper.ORAL_ARGUMENT_INDEX (scraper.href a)) ∧
        ∀ j, is_Some (date_of j a)) →
  ∃ cases, scan i links = inr cases.
Proof using Type.
  revert i. induction links as [|a links IH]; intros i Hgood; simpl; [eauto|].
  destruct (IH (S i)) as [cases Hscan]; [intros a' Ha'; apply Hgood; set_solver|].
  rewrite Hscan. destruct (is_mp3 a) eqn:Hmp3; [|eauto].
  destruct (Hgood a) as [[url Hurl] Hdate]; [set_solver|by rewrite Hmp3|].
  destruct (Hdate i) as [arg_date Harg].
  unfold scraper.case_of_link. rewrite Hurl, Harg. eauto.
Qed.

(** One case per link that ends in [.mp3], in the order of the page, and
    nothing else: when [discover_mp3_links] returns, its cases match the
    mp3 links of the page one by one.  Each case has the docket and the
    date computed from its link, the text of the link as its title, or the
    docket when the link has no text, and the joined URL.  Two links to the
    same file give two cases. *)
Theorem discover_one_case_per_link (links : list scraper.anchor) (cases : list Case) :
  discover_mp3_links (Ok links) = inr cases →
  Forall2 (λ a c,
             docket c = docket_of a ∧
             title c = (if decide (scraper.link_text a = []) then docket_of a
                        else scraper.link_text a) ∧
             urljoin scraper.ORAL_ARGUMENT_INDEX (scraper.href a)
             = Some (mp3_url c) ∧
             ∃ j, date_of j a = Some (date c))
    (filter (λ a, is_mp3 a) links) cases.
Proof using Type.
  intros Hscan%scan_inr. eapply Forall2_impl; [done|].
  intros a c [j (? & ? & ? & ?)%case_of_link_inr]. eauto.
Qed.

(** When every mp3 link of the page can be joined to the base URL and has
    a file name without a date or with a date of the calendar,
    [discover_mp3_links] returns its list of cases. *)
Theorem discover_returns (links : list scraper.anchor) :
  (∀ a, a ∈ links → is_mp3 a →
        is_Some (urljoin scraper.ORAL_ARGUMENT_INDEX (scraper.href a)) ∧
        ∀ groups, search_date (scraper.basename (scraper.href a)) = Some groups →
                  is_Some (scraper.make_datetime (int groups.2) (int groups.1.1)
                             (int groups.1.2))) →
  ∃ cases, discover_mp3_links (Ok links) = inr cases.
Proof using Type.
  intros Hgood. apply scan_returns. intros a Ha Hmp3.
  destruct (Hgood a Ha Hmp3) as [Hurl Hdate]. split; [done|].
  intros j. unfold scraper.date_of.
  destruct (search_date _) as [[[month day] year]|]; [|eauto].
  by apply (Hdate (month, day, year)).
Qed.

(** One file name with a date that is not of the calendar, such as
    [13-45-2024.mp3], makes [discover_mp3_links] raise [ValueError]: no
    case of the page is returned. *)
Theorem discover_bad_date (links : list scraper.anchor) (a : scraper.anchor)
    (month day year : str) :
  a ∈ links →
  is_mp3 a →
  search_date (scraper.basename (scraper.href a)) = Some (month, day, year) →
  scraper.make_datetime (int year) (int month) (int day) = None →
  discover_mp3_links (Ok links) = inl scraper.ValueError.
Proof using Type.
  intros Ha Hmp3 Hdate Hbad. simpl.
  destruct (scan 0 links) as [e|cases] eqn:Hscan.
  - by rewrite (scan_inl _ _ _ Hscan).
  - apply scan_inr in Hscan.
    assert (a ∈ filter (λ a, is_mp3 a) links) as Hin
      by by apply list_elem_of_filter.
    apply list_elem_of_lookup in Hin as [k Hk].
    destruct (Forall2_lookup_l _ _ _ _ _ Hscan Hk) as (c & _ & j & Hcase).
    apply case_of_link_inr in Hcase as (_ & _ & _ & Hdate').
    unfold scraper.date_of in Hdate'. rewrite Hdate, Hbad in Hdate'. done.
Qed.

Lemma scan_elem links cases c :
  discover_mp3_links (Ok links) = inr cases →
  c ∈ cases →
  ∃ a j, a ∈ links ∧ is_mp3 a ∧ case_of_link j a = inr c.
Proof using Type.
  intros Hscan%scan_inr Hc.
  apply list_elem_of_lookup in Hc as [k Hk].
  destruct (Forall2_lookup_r _ _ _ _ _ Hscan Hk) as (a & Ha & j & Hcase).
  apply list_elem_of_lookup_2, list_elem_of_filter in Ha as [Hmp3 Ha].
  by exists a, j.
Qed.

Lemma docket_of_origin a :
  docket_number decimal (docket_of a) ∧
  (∃ l1 l2, scraper.basename (scraper.href a) ++ py " " ++ scraper.link_text a
            = l1 ++ docket_of a ++ l2) ∨
  search_docket None
    (scraper.basename (scraper.href a) ++ py " " ++ scraper.link_text a) = None ∧
  docket_of a = scraper.basename (scraper.href a).
Proof using Type.
  unfold scraper.docket_of.
  destruct (search_docket None _) as [d|] eqn:Hsearch; simpl; [left|by right].
  by apply search_docket_Some in Hsearch.
Qed.

(** The docket of every discovered case comes from its link: it is a
    docket number (four digits, a hyphen, three to five digits) that occurs
    in the file name followed by a blank and the text of the link, or, when
    there is none, the file name itself. *)
Theorem discovered_docket_origin (links : list scraper.anchor) (cases : list Case)
    (c : Case) :
  discover_mp3_links (Ok links) = inr cases →
  c ∈ cases →
  ∃ a, a ∈ links ∧ is_mp3 a ∧
       (docket_number decimal (docket c) ∧
        (∃ l1 l2, scraper.basename (scraper.href a) ++ py " " ++ scraper.link_text a
                  = l1 ++ docket c ++ l2) ∨
        search_docket None
          (scraper.basename (scraper.href a) ++ py " " ++ scraper.link_text a) = None ∧
        docket c = scraper.basename (scraper.href a)).
Proof using Type.
  intros Hrun Hc.
  destruct (scan_elem _ _ _ Hrun Hc) as (a & j & Ha & Hmp3 & Hcase).
  apply case_of_link_inr in Hcase as (Hdocket & _).
  exists a. split_and!; [done..|]. rewrite Hdocket. apply docket_of_origin.
Qed.

(** No docket of a discovered case contains a slash, and so the name
    [docket.mp3] under which its asset is stored has none either: the
    asset is written in the working directory.  (No slash is a decimal
    digit.) *)
Theorem discovered_docket_no_slash (links : list scraper.anchor) (cases : list Case)
    (c : Case) :
  decimal 47%N = None →
  discover_mp3_links (Ok links) = inr cases →
  c ∈ cases →
  (47%N ∉ docket c) ∧ (47%N ∉ local_filename_of (docket c)).
Proof using Type.
  intros Hslash Hrun Hc.
  assert (47%N ∉ docket c) as Hdocket.
  { destruct (scan_elem _ _ _ Hrun Hc) as (a & j & _ & _ & Hcase).
    apply case_of_link_inr in Hcase as (-> & _).
    destruct (docket_of_origin a) as [[Hnumber _]|[_ ->]].
    - intros [Hdec|?]%(docket_number_chars _ _ _ Hnumber); [|done].
      rewrite Hslash in Hdec. by destruct Hdec.
    - apply basename_no_slash. }
  split; [done|]. unfold local_filename_of.
  intros [?|Hin]%elem_of_app; [done|]. vm_compute in Hin. set_solver.
Qed.

(** When every mp3 link of the page carries a docket number, in its file
    name or in its text, every discovered docket is not empty and has no
    white space around it.  (No white-space character is a decimal
    digit.) *)
Theorem discovered_docket_numbers_clean (links : list scraper.anchor)
    (cases : list Case) :
  (∀ c, isspace c = true → decimal c = None) →
  (∀ a, a ∈ links → is_mp3 a →
        is_Some (search_docket None
                   (scraper.basename (scraper.href a) ++ py " " ++
                    scraper.link_text a))) →
  discover_mp3_links (Ok links) = inr cases →
  Forall (λ c, docket c ≠ [] ∧ trimmed (docket c)) cases.
Proof using Type.
  intros Hspace Hnumbers Hrun. apply Forall_forall. intros c Hc.
  destruct (scan_elem _ _ _ Hrun Hc) as (a & j & Ha & Hmp3 & Hcase).
  apply case_of_link_inr in Hcase as (-> & _).
  destruct (docket_of_origin a) as [[Hnumber _]|[Hnone _]].
  - by eapply docket_number_clean.
  - destruct (Hnumbers a Ha Hmp3) as [d Hd]. congruence.
Qed.

End discovery.

(** *** The index page on sample links *)

Lemma ascii_decimal_not_space c : isspace c = true → ascii_decimal c = None.
Proof.
  unfold isspace, ascii_decimal. intros Hspace.
  destruct ((48 <=? c) && (c <=? 57))%N eqn:Hdigit; [|done].
  apply andb_true_iff in Hdigit as [?%N.leb_le ?%N.leb_le].
  rewrite !orb_true_iff, !andb_true_iff, !N.leb_le, !N.eqb_eq in Hspace. lia.
Qed.

(** The links of the sample page: the first is not an mp3 link, the second
    has a docket number and a date in its file name, and the third has
    neither, so that its file name, blank included, becomes the docket. *)
Example discover_sample_links :
  scraper.discover_mp3_links ascii_decimal ascii_isalnum ascii_lower join_relative
    noon (Ok sample_links)
  = inr sample_cases.
Proof. vm_compute. reflexivity. Qed.

Example search_docket_examples :
  let search := scraper.search_docket ascii_decimal ascii_isalnum None in
  search (py "2023-1234_03-05-2024.mp3 Argument") = None ∧
  search (py "arg.mp3 No. 2023-12345, Doe v. Roe") = Some (py "2023-12345") ∧
  search (py "2024-123456.mp3") = None ∧
  search (py "x2024-1234 2024-12 2025-1234") = Some (py "2025-1234").
Proof. split_and!; vm_compute; reflexivity. Qed.

Lemma discover_one_case_per_link_witness :
  ∃ cases,
    scraper.discover_mp3_links ascii_decimal ascii_isalnum ascii_lower join_relative
      noon (Ok sample_links) = inr cases ∧
    Forall2 (λ a c,
               docket c = scraper.docket_of ascii_decimal ascii_isalnum a ∧
               title c = (if decide (scraper.link_text a = [])
                          then scraper.docket_of ascii_decimal ascii_isalnum a
                          else scraper.link_text a) ∧
               join_relative scraper.ORAL_ARGUMENT_INDEX (scraper.href a)
               = Some (mp3_url c) ∧
               ∃ j, scraper.date_of ascii_decimal noon j a = Some (date c))
      (filter (λ a, scraper.is_mp3 ascii_lower a) sample_links) cases.
Proof.
  eexists. split; [vm_compute; reflexivity|].
  apply (discover_one_case_per_link ascii_decimal ascii_isalnum ascii_lower
           join_relative noon sample_links).
  vm_compute. reflexivity.
Defined.

Lemma discover_returns_witness :
  ∃ cases,
    scraper.discover_mp3_links ascii_decimal ascii_isalnum ascii_lower join_relative
      noon (Ok sample_links) = inr cases.
Proof.
  apply (discover_returns ascii_decimal ascii_isalnum ascii_lower join_relative
           noon sample_links).
  intros a Ha _. split; [by eexists|]. intros groups Hdate.
  repeat (apply elem_of_cons in Ha as [->|Ha]); [..|by apply elem_of_nil in Ha];
    vm_compute in Hdate; simplify_eq; vm_compute; eauto.
Defined.

Lemma discover_bad_date_witness :
  scraper.discover_mp3_links ascii_decimal ascii_isalnum ascii_lower join_relative
    noon (Ok bad_date_links)
  = inl scraper.ValueError.
Proof.
  apply (discover_bad_date ascii_decimal ascii_isalnum ascii_lower join_relative
           noon bad_date_links
           (scraper.Anchor (py "audio/13-45-2024.mp3") (py "2024-1003"))
           (py "13") (py "45") (py "2024")).
  - set_solver.
  - by_evaluation.
  - vm_compute. reflexivity.
  - vm_compute. reflexivity.
Defined.

Lemma discovered_docket_origin_witness :
  ∃ a, a ∈ sample_links ∧ scraper.is_mp3 ascii_lower a ∧
       (docket_number ascii_decimal (py "2024-1002") ∧
        (∃ l1 l2, scraper.basename (scraper.href a) ++ py " " ++ scraper.link_text a
                  = l1 ++ py "2024-1002" ++ l2) ∨
        scraper.search_docket ascii_decimal ascii_isalnum None
          (scraper.basename (scraper.href a) ++ py " " ++ scraper.link_text a) = None ∧
        py "2024-1002" = scraper.basename (scraper.href a)).
Proof.
  apply (discovered_docket_origin ascii_decimal ascii_isalnum ascii_lower
           join_relative noon sample_links sample_cases
           (mkCase (py "2024-1002") (py "Smith v. Jones") (Datetime 2024 3 1 0 0 0 0)
              (scraper.ORAL_ARGUMENT_INDEX ++ py "audio/2024-1002.03-01-2024.MP3"))).
  - vm_compute. reflexivity.
  - apply list_elem_of_here.
Defined.

Lemma discovered_docket_no_slash_witness :
  (47%N ∉ py " a.mp3") ∧ (47%N ∉ local_filename_of (py " a.mp3")).
Proof.
  apply (discovered_docket_no_slash ascii_decimal ascii_isalnum ascii_lower
           join_relative noon sample_links sample_cases
           (mkCase (py " a.mp3") (py " a.mp3") (noon 2)
              (scraper.ORAL_ARGUMENT_INDEX ++ py "audio/ a.mp3"))).
  - reflexivity.
  - vm_compute. reflexivity.
  - apply list_elem_of_further, list_elem_of_here.
Defined.

Lemma discovered_docket_numbers_clean_witness :
  ∃ cases,
    scraper.discover_mp3_links ascii_decimal ascii_isalnum ascii_lower join_relative
      noon (Ok numbered_links) = inr cases ∧
    docket <$> cases = [py "2024-1002"; py "2023-12345"] ∧
    Forall (λ c, docket c ≠ [] ∧ trimmed (docket c)) cases.
Proof.
  eexists. split; [vm_compute; reflexivity|]. split; [vm_compute; reflexivity|].
  apply (discovered_docket_numbers_clean ascii_decimal ascii_isalnum ascii_lower
           join_relative noon numbered_links).
  - apply ascii_decimal_not_space.
  - intros a Ha Hmp3.
    repeat (apply elem_of_cons in Ha as [->|Ha]); [..|by apply elem_of_nil in Ha];
      vm_compute in Hmp3; try done; vm_compute; eauto.
  - vm_compute. reflexivity.
Defined.
